(** * FfmpegStreamingProcess: the ffmpeg supervisor of the Tuya camera stream

    A shallow embedding of [src/util/FfmpegStreamingProcess.ts]:
    - the JavaScript string and number primitives the file calls
      ([indexOf], [split], [trim], [parseInt], [parseFloat]);
    - [parseProgress], with its [Map] and its [try]/[catch];
    - the four event handlers the constructor installs, the kill timer
      callback and [stop], as one step function over the closure state
      ([started], [callback], [killTimeout]) that returns the calls made on
      the logger, the delegate, the ready callback and the child process. *)

From Stdlib Require Import ZArith QArith String Ascii List Lia Bool.
From Stdlib Require Import DecimalString DecimalPos DecimalN.
From stdpp Require Import base option gmap strings.
Import ListNotations.

Local Open Scope string_scope.
Local Open Scope list_scope.
Local Open Scope Z_scope.

#[local] Set Warnings "-clear-no-such-hyp".

(** ** JavaScript primitives *)

Module JS.

(** A string is the decoded text of a chunk ([data.toString()] on the
    Buffer that the stream hands over); code units are restricted to one
    byte, which covers what ffmpeg prints on its progress pipe. *)

(** A JavaScript number.  [Num q] stands for the double nearest to the
    rational [q], kept in lowest terms; the rounding to binary64 and the
    sign of zero are left out: a comparison with a constant and the test
    for NaN, the only operations the supervisor applies, do not see them. *)
Inductive number : Type :=
  | NaN
  | Infinity (negative : bool)
  | Num (q : Q).

Definition of_Z (z : Z) : number := Num (inject_Z z).

Definition Qlt_bool (x y : Q) : bool := negb (Qle_bool y x).

(** [a < b] *)
Definition lt (a b : number) : bool :=
  match a, b with
  | NaN, _ | _, NaN => false
  | Infinity na, Infinity nb => na && negb nb
  | Infinity na, Num _ => na
  | Num _, Infinity nb => negb nb
  | Num x, Num y => Qlt_bool x y
  end.

(** [a > b] *)
Definition gt (a b : number) : bool := lt b a.

Definition isNaN (a : number) : bool :=
  match a with NaN => true | _ => false end.

(** *** Strings *)

Definition chr (n : nat) : ascii := ascii_of_nat n.
Definition LF : string := String (chr 10) "".
Definition CR : string := String (chr 13) "".

(** WhiteSpace and LineTerminator code units below 256:
    TAB, LF, VT, FF, CR, SP, NBSP. *)
Definition isWhiteSpace (c : ascii) : bool :=
  let n := nat_of_ascii c in
  ((9 <=? n) && (n <=? 13))%nat || (n =? 32)%nat || (n =? 160)%nat.

Fixpoint trimStart (s : string) : string :=
  match s with
  | String c s' => if isWhiteSpace c then trimStart s' else s
  | EmptyString => EmptyString
  end.

Fixpoint trimEnd (s : string) : string :=
  match s with
  | String c s' =>
      match trimEnd s' with
      | EmptyString => if isWhiteSpace c then EmptyString else String c EmptyString
      | t => String c t
      end
  | EmptyString => EmptyString
  end.

(** [s.trim()] *)
Definition trim (s : string) : string := trimEnd (trimStart s).

(** [s.indexOf(needle)], with -1 for "not found". *)
Fixpoint indexOf_from (needle s : string) (i : Z) : Z :=
  if String.prefix needle s then i
  else match s with
       | String _ s' => indexOf_from needle s' (i + 1)
       | EmptyString => -1
       end.

Definition indexOf (needle s : string) : Z := indexOf_from needle s 0.

Definition includes (needle s : string) : bool := negb (Z.eqb (indexOf needle s) (-1)).

(** [s.split(sep)] for a one-character separator: never empty, one more
    piece than there are separators. *)
Fixpoint split_char (sep : ascii) (s : string) : list string :=
  match s with
  | EmptyString => [EmptyString]
  | String c s' =>
      if Ascii.eqb c sep then EmptyString :: split_char sep s'
      else match split_char sep s' with
           | piece :: pieces => String c piece :: pieces
           | [] => [String c EmptyString]
           end
  end.

(** [s.split(sep, limit)]: the pieces of [s.split(sep)], cut to the first
    [limit] of them. *)
Definition split_limit (sep : ascii) (limit : nat) (s : string) : list string :=
  firstn limit (split_char sep s).

(** [s.split(/\r?\n/)]: a line ends at LF, and one CR right before that LF
    belongs to the terminator. *)
Fixpoint split_lines (s : string) : list string :=
  match s with
  | EmptyString => [EmptyString]
  | String c s' =>
      let rest := split_lines s' in
      if Ascii.eqb c (chr 10) then EmptyString :: rest
      else match s' with
           | String c' _ =>
               if Ascii.eqb c (chr 13) && Ascii.eqb c' (chr 10) then rest
               else match rest with
                    | line :: lines => String c line :: lines
                    | [] => [String c EmptyString]
                    end
           | EmptyString => [String c EmptyString]
           end
  end.

(** *** [parseInt] and [parseFloat] *)

(** [ToString] of a value that is a string or [undefined]. *)
Definition ToString (v : option string) : string :=
  match v with
  | Some s => s
  | None => "undefined"
  end.

(** The value of a digit in the largest radix, 36. *)
Definition digit_value (c : ascii) : option Z :=
  let n := Z.of_nat (nat_of_ascii c) in
  if (48 <=? n) && (n <=? 57) then Some (n - 48)
  else if (97 <=? n) && (n <=? 122) then Some (n - 87)
  else if (65 <=? n) && (n <=? 90) then Some (n - 55)
  else None.

(** The longest prefix of radix-[R] digits, as digit values, and what
    follows it. *)
Fixpoint span_digits (R : Z) (s : string) : list Z * string :=
  match s with
  | String c s' =>
      match digit_value c with
      | Some d =>
          if d <? R then let '(ds, rest) := span_digits R s' in (d :: ds, rest)
          else ([], s)
      | None => ([], s)
      end
  | EmptyString => ([], EmptyString)
  end.

Definition digits_value (R : Z) (ds : list Z) : Z :=
  fold_left (fun acc d => acc * R + d) ds 0.

(** A leading sign: whether it is minus, and the text after it. *)
Definition strip_sign (s : string) : bool * string :=
  match s with
  | String c s' =>
      if Ascii.eqb c "-" then (true, s')
      else if Ascii.eqb c "+" then (false, s')
      else (false, s)
  | EmptyString => (false, s)
  end.

Definition signed (negative : bool) (z : Z) : Z := if negative then - z else z.

(** [parseInt(v)] with no radix argument: leading white space, a sign, a
    [0x] or [0X] prefix that selects radix 16, then the longest run of
    digits; NaN when that run is empty. *)
Definition parseInt (v : option string) : number :=
  let str := trimStart (ToString v) in
  let '(negative, str) := strip_sign str in
  let '(R, str) :=
    if String.prefix "0x" str || String.prefix "0X" str
    then (16, String.substring 2 (String.length str - 2) str)
    else (10, str) in
  match span_digits R str with
  | ([], _) => NaN
  | (ds, _) => of_Z (signed negative (digits_value R ds))
  end.

(** The exponent part [e], [e+] or [e-] followed by digits; 0 and nothing
    consumed when no digit follows. *)
Definition exponent_part (s : string) : Z :=
  match s with
  | String c s' =>
      if Ascii.eqb c "e" || Ascii.eqb c "E" then
        let '(negative, s'') := strip_sign s' in
        match span_digits 10 s'' with
        | ([], _) => 0
        | (ds, _) => signed negative (digits_value 10 ds)
        end
      else 0
  | EmptyString => 0
  end.

(** m * 10^e, in lowest terms. *)
Definition decimal (m e : Z) : Q :=
  if 0 <=? e then inject_Z (m * 10 ^ e)
  else Qred (Qmake m (Z.to_pos (10 ^ (- e)))).

(** [parseFloat(v)]: leading white space, then the longest prefix that is
    a StrDecimalLiteral: a sign, then [Infinity] or digits with an optional
    fraction and an optional exponent; NaN when there is no such prefix. *)
Definition parseFloat (v : option string) : number :=
  let str := trimStart (ToString v) in
  let '(negative, str) := strip_sign str in
  if String.prefix "Infinity" str then Infinity negative
  else
    let '(ip, str) := span_digits 10 str in
    let '(fp, str) :=
      match str with
      | String c str' =>
          if Ascii.eqb c "." then
            match span_digits 10 str', ip with
            | ([], _), [] => ([], str)
            | r, _ => r
            end
          else ([], str)
      | EmptyString => ([], str)
      end in
    match ip, fp with
    | [], [] => NaN
    | _, _ =>
        let m := digits_value 10 (ip ++ fp) in
        let e := exponent_part str - Z.of_nat (List.length fp) in
        Num (decimal (signed negative m) e)
    end.

End JS.

(** ** [parseProgress] *)

Record FfmpegProgress : Type := {
  frame : JS.number;
  fps : JS.number;
  stream_q : JS.number;
  bitrate : JS.number;
  total_size : JS.number;
  out_time_us : JS.number;
  out_time : string;
  dup_frames : JS.number;
  drop_frames : JS.number;
  speed : JS.number;
  progress : string
}.

(** What a [try] block gives: a value, or the exception it threw. *)
Inductive exn : Type := TypeError.

Inductive completion (A : Type) : Type :=
  | Normal (a : A)
  | Throw (e : exn).
Arguments Normal {A} a.
Arguments Throw {A} e.

#[global] Instance completion_ret : MRet completion := fun A a => Normal a.

#[global] Instance completion_bind : MBind completion := fun A B k c =>
  match c with
  | Normal a => k a
  | Throw e => Throw e
  end.

(** [try { ... } catch { return undefined; }] *)
Definition try_catch {A : Type} (c : completion A) : option A :=
  match c with
  | Normal a => Some a
  | Throw _ => None
  end.

(** [new Map<string, string>()].  The type says [string], but [set] stores
    whatever [split[1]] is, and that is [undefined] for a line without [=]:
    a value is a string or [undefined] ([None]). *)
Abbreviation ProgressMap := (gmap string (option string)).

(** [progress.get(key)]: [undefined] for a missing key, and for a key that
    is set to [undefined]. *)
Definition Map_get (m : ProgressMap) (key : string) : option string :=
  match m !! key with
  | Some v => v
  | None => None
  end.

(** [progress.has(key)] *)
Definition Map_has (m : ProgressMap) (key : string) : bool :=
  match m !! key with
  | Some _ => true
  | None => false
  end.

(** The body of the [forEach]:
    [const split = line.split('=', 2); progress.set(split[0], split[1])]. *)
Definition line_key (line : string) : string :=
  hd "" (JS.split_limit "=" 2 line).

Definition line_value (line : string) : option string :=
  nth_error (JS.split_limit "=" 2 line) 1.

Definition set_line (m : ProgressMap) (line : string) : ProgressMap :=
  <[line_key line := line_value line]> m.

Definition progress_map (input : string) : ProgressMap :=
  fold_left set_line (JS.split_lines input) ∅.

(** [value!.trim()]: the non-null assertion is erased by the compiler, so
    the method call on [undefined] throws. *)
Definition call_trim (v : option string) : completion string :=
  match v with
  | Some s => Normal (JS.trim s)
  | None => Throw TypeError
  end.

(** The [try] block of [parseProgress]. *)
Definition parseProgress_try (input : string) : completion FfmpegProgress :=
  let m := progress_map input in
  let frame := JS.parseInt (Map_get m "frame") in
  let fps := JS.parseFloat (Map_get m "fps") in
  let stream_q := JS.parseFloat (Map_get m "stream_0_0_q") in
  let bitrate := JS.parseFloat (Map_get m "bitrate") in
  let total_size := JS.parseInt (Map_get m "total_size") in
  let out_time_us := JS.parseInt (Map_get m "out_time_us") in
  out_time ← call_trim (Map_get m "out_time");
  let dup_frames := JS.parseInt (Map_get m "dup_frames") in
  let drop_frames := JS.parseInt (Map_get m "drop_frames") in
  let speed := JS.parseFloat (Map_get m "speed") in
  progress ← call_trim (Map_get m "progress");
  mret {| frame := frame; fps := fps; stream_q := stream_q;
            bitrate := bitrate; total_size := total_size;
            out_time_us := out_time_us; out_time := out_time;
            dup_frames := dup_frames; drop_frames := drop_frames;
            speed := speed; progress := progress |}.

(** [parseProgress(data)], on [input = data.toString()]; [None] is
    [undefined], "no report". *)
Definition parseProgress (input : string) : option FfmpegProgress :=
  if JS.indexOf "frame=" input =? 0 then try_catch (parseProgress_try input)
  else None.

(** ** The supervisor *)

(** A timer handle, as [setTimeout] returns it. *)
Definition timer : Type := nat.

(** The calls the supervisor makes on its collaborators: the logger
    ([log.debug(message, name, forceDebug)], [log.warn], [log.error]), the
    ready callback ([callback()] or [callback(new Error(message))]), the
    delegate, and the Node runtime (child process, its stdin, timers). *)
Inductive call : Type :=
  | log_debug (message name : string) (forceDebug : bool)
  | log_warn (message name : string)
  | log_error (message name : string)
  | callback_call (error : option string)
  | stopStream (sessionId : string)
  | forceStopStream (sessionId : string)
  | spawn (command : string) (args : list string)
  | stdin_write (chunk : string)
  | setTimeout (id : timer) (ms : Z)
  | clearTimeout (id : timer)
  | process_kill (signal : string).

(** What the event loop delivers to the supervisor, and the one public
    method that changes it:
    - [stdout_data]: ['data'] on stdout; [now] is what [Date.now()] reads
      in the handler;
    - [stderr_line]: ['line'] on the readline interface over stderr;
    - [process_error]: ['error'] on the child process, with [error.message];
    - [process_exit]: ['exit'] on the child process, [None] being [null];
    - [timeout]: timer [id] is due, and [kill_result] is what
      [process.kill] returns in its callback;
    - [stop]: a call of [stop()]. *)
Inductive event : Type :=
  | stdout_data (data : string) (now : Z)
  | stderr_line (line : string)
  | process_error (message : string)
  | process_exit (code : option Z) (signal : option string)
  | timeout (id : timer) (kill_result : bool)
  | stop.

(** The variables the handlers close over and the fields they read, with
    the part of the runtime they depend on: the timers that are armed, and
    [process.killed], which [process.kill] sets when the signal was sent. *)
Record state : Type := {
  started : bool;
  startTime : Z;
  callback : bool;              (* [callback] holds a function *)
  killTimeout : option timer;   (* [this.killTimeout] *)
  armed : gset timer;
  next_timer : timer;
  killed : bool                 (* [this.process.killed] *)
}.

Definition is_log (c : call) : bool :=
  match c with
  | log_debug _ _ _ | log_warn _ _ | log_error _ _ => true
  | _ => false
  end.

Definition is_callback_call (c : call) : bool :=
  match c with callback_call _ => true | _ => false end.

Definition is_process_kill (c : call) : bool :=
  match c with process_kill _ => true | _ => false end.

Definition is_delegate_call (c : call) : bool :=
  match c with stopStream _ | forceStopStream _ => true | _ => false end.

(** [line.match(/\[(panic|fatal|error)\]/)], as a truth value. *)
Definition match_severity (line : string) : bool :=
  JS.includes "[panic]" line || JS.includes "[fatal]" line
  || JS.includes "[error]" line.

(** [(now - startTime) / 1000] *)
Definition runtime_seconds (now start : Z) : Q := Qred (Qmake (now - start) 1000).

Module FfmpegStreamingProcess.

Section Constructor.

(** The constructor's arguments, [os.EOL], and the conversion of a number
    to a string that [+] applies. *)
Variables cameraName sessionId videoProcessor : string.
Variable ffmpegArgs : list string.
Variable debug : bool.
Variable EOL : string.
Variable Number_toString : JS.number -> string.

Definition startup_message (runtime : Q) : string :=
  "Getting the first frames took " +:+ Number_toString (JS.Num runtime) +:+ " seconds.".

Definition startup_log (runtime : Q) : call :=
  if JS.lt (JS.Num runtime) (JS.of_Z 5) then
    log_debug (startup_message runtime) cameraName debug
  else if JS.lt (JS.Num runtime) (JS.of_Z 22) then
    log_warn (startup_message runtime) cameraName
  else
    log_error (startup_message runtime) cameraName.

Definition on_stdout_data (s : state) (data : string) (now : Z) : state * list call :=
  match parseProgress data with
  | Some progress =>
      if negb (started s) && JS.gt (frame progress) (JS.of_Z 0) then
        let runtime := runtime_seconds now (startTime s) in
        ({| started := true; startTime := startTime s; callback := callback s;
            killTimeout := killTimeout s; armed := armed s;
            next_timer := next_timer s; killed := killed s |},
         [startup_log runtime])
      else (s, [])
  | None => (s, [])
  end.

Definition on_stderr_line (s : state) (line : string) : state * list call :=
  ({| started := started s; startTime := startTime s; callback := false;
      killTimeout := killTimeout s; armed := armed s;
      next_timer := next_timer s; killed := killed s |},
   (if callback s then [callback_call None] else [])
   ++ (if debug && match_severity line then [log_error line cameraName]
       else if debug then [log_debug line cameraName true]
       else [])).

Definition on_process_error (s : state) (message : string) : state * list call :=
  (s,
   [log_error ("FFmpeg process creation failed: " +:+ message) cameraName]
   ++ (if callback s then [callback_call (Some "FFmpeg process creation failed")]
       else [])
   ++ [stopStream sessionId]).

Definition show_code (code : option Z) : string :=
  match code with
  | Some c => Number_toString (JS.of_Z c)
  | None => "null"
  end.

Definition show_signal (signal : option string) : string :=
  match signal with
  | Some sig => sig
  | None => "null"
  end.

Definition exit_message (code : option Z) (signal : option string) : string :=
  "FFmpeg exited with code: " +:+ show_code code +:+ " and signal: " +:+ show_signal signal.

Definition code_is (code : option Z) (n : Z) : bool :=
  match code with
  | Some c => c =? n
  | None => false
  end.

Definition on_process_exit (s : state) (code : option Z) (signal : option string)
  : state * list call :=
  let message := exit_message code signal in
  ({| started := started s; startTime := startTime s; callback := callback s;
      killTimeout := killTimeout s;
      armed := match killTimeout s with
               | Some t => armed s ∖ {[t]}
               | None => armed s
               end;
      next_timer := next_timer s; killed := killed s |},
   match killTimeout s with
   | Some t => [clearTimeout t]
   | None => []
   end
   ++ (if bool_decide (is_Some (killTimeout s)) && code_is code 0 then
         [log_debug (message +:+ " (Expected)") cameraName debug]
       else if bool_decide (code = None) || code_is code 255 then
         if killed s then [log_debug (message +:+ " (Forced)") cameraName debug]
         else [log_error (message +:+ " (Unexpected)") cameraName]
       else
         [log_error (message +:+ " (Error)") cameraName; stopStream sessionId]
         ++ (if negb (started s) && callback s then [callback_call (Some message)]
             else [forceStopStream sessionId]))).

(** The callback [stop] hands to [setTimeout].  The event loop runs it only
    for a timer that is armed, and once. *)
Definition on_timeout (s : state) (id : timer) (kill_result : bool) : state * list call :=
  if bool_decide (id ∈ armed s) then
    ({| started := started s; startTime := startTime s; callback := callback s;
        killTimeout := killTimeout s; armed := armed s ∖ {[id]};
        next_timer := next_timer s; killed := killed s || kill_result |},
     [process_kill "SIGKILL"])
  else (s, []).

Definition do_stop (s : state) : state * list call :=
  let t := next_timer s in
  ({| started := started s; startTime := startTime s; callback := callback s;
      killTimeout := Some t; armed := armed s ∪ {[t]};
      next_timer := S t; killed := killed s |},
   [stdin_write ("q" +:+ EOL); setTimeout t (2 * 1000)]).

Definition handle (s : state) (e : event) : state * list call :=
  match e with
  | stdout_data data now => on_stdout_data s data now
  | stderr_line line => on_stderr_line s line
  | process_error message => on_process_error s message
  | process_exit code signal => on_process_exit s code signal
  | timeout id kill_result => on_timeout s id kill_result
  | stop => do_stop s
  end.

(** The closure state the constructor sets up: [has_callback] tells whether
    the optional [callback] argument was passed, [now] is what [Date.now()]
    reads. *)
Definition init (has_callback : bool) (now : Z) : state :=
  {| started := false; startTime := now; callback := has_callback;
     killTimeout := None; armed := ∅; next_timer := 0%nat; killed := false |}.

Definition constructor (has_callback : bool) (now : Z) : state * list call :=
  (init has_callback now,
   [log_debug ("Stream command: " +:+ videoProcessor +:+ " " +:+ String.concat " " ffmpegArgs)
      cameraName debug;
    spawn videoProcessor ffmpegArgs]).

(** A lifetime: the events in the order the event loop delivers them. *)
Fixpoint run (s : state) (es : list event) : state * list call :=
  match es with
  | [] => (s, [])
  | e :: es' =>
      let '(s1, c1) := handle s e in
      let '(s2, c2) := run s1 es' in
      (s2, c1 ++ c2)
  end.

(** The calls made by the stdout handler alone. *)
Definition stdout_step_calls (s : state) (e : event) : list call :=
  match e with
  | stdout_data _ _ => snd (handle s e)
  | _ => []
  end.

Fixpoint stdout_calls (s : state) (es : list event) : list call :=
  match es with
  | [] => []
  | e :: es' => stdout_step_calls s e ++ stdout_calls (fst (handle s e)) es'
  end.

End Constructor.

End FfmpegStreamingProcess.

Import FfmpegStreamingProcess.

(** ** Vocabulary of the statements *)

(** Whether the character occurs in the string. *)
Fixpoint has_char (c : ascii) (s : string) : bool :=
  match s with
  | String c' s' => Ascii.eqb c' c || has_char c s'
  | EmptyString => false
  end.

(** A chunk made of the given lines, LF between them. *)
Definition unlines (ls : list string) : string := String.concat JS.LF ls.

(** The block of the ffmpeg documentation the parser is written for; the
    last, empty line gives the final LF. *)
Definition sample_block : string :=
  unlines ["frame=10"; "fps=25.0"; "stream_0_0_q=28.0"; "bitrate=512.3";
           "total_size=10240"; "out_time_us=400000"; "out_time=00:00:00.40";
           "dup_frames=0"; "drop_frames=0"; "speed=1.0"; "progress=continue"; ""].

(** The same block without its [speed=] line. *)
Definition block_without_speed : string :=
  unlines ["frame=10"; "fps=25.0"; "stream_0_0_q=28.0"; "bitrate=512.3";
           "total_size=10240"; "out_time_us=400000"; "out_time=00:00:00.40";
           "dup_frames=0"; "drop_frames=0"; "progress=continue"; ""].

(** The same block with an [fps] that is not a number. *)
Definition block_with_bad_fps : string :=
  unlines ["frame=10"; "fps=N/A"; "stream_0_0_q=28.0"; "bitrate=512.3";
           "total_size=10240"; "out_time_us=400000"; "out_time=00:00:00.40";
           "dup_frames=0"; "drop_frames=0"; "speed=1.0"; "progress=continue"; ""].

(** A block whose [out_time] line has lost its [=]. *)
Definition block_with_bare_out_time : string :=
  unlines ["frame=1"; "out_time"; "progress=continue"].

(** The events by kind. *)
Definition is_stop (e : event) : bool :=
  match e with stop => true | _ => false end.

Definition is_stderr_line (e : event) : bool :=
  match e with stderr_line _ => true | _ => false end.

(** Output and errors of the child: neither [stop()], nor the exit, nor a
    timer. *)
Definition is_output (e : event) : bool :=
  match e with
  | stdout_data _ _ | stderr_line _ | process_error _ => true
  | _ => false
  end.

(** A stdout chunk that parses to a report with [frame > 0]. *)
Definition has_frames (e : event) : bool :=
  match e with
  | stdout_data data _ =>
      match parseProgress data with
      | Some r => JS.gt (frame r) (JS.of_Z 0)
      | None => false
      end
  | _ => false
  end.

(** A stand-in for the number-to-string conversion in the examples: exact
    on the integers, which is all the examples print. *)
Definition integer_toString (n : JS.number) : string :=
  match n with
  | JS.NaN => "NaN"
  | JS.Infinity negative => if negative then "-Infinity" else "Infinity"
  | JS.Num q => NilEmpty.string_of_int (Z.to_int (Qnum q / Zpos (Qden q)))
  end.

(** A supervisor for the examples: camera "Camera", session "session-1",
    LF as line terminator. *)
Definition demo_handle (debug : bool) : state -> event -> state * list call :=
  handle "Camera" "session-1" debug JS.LF integer_toString.

Definition demo_run (debug : bool) : state -> list event -> state * list call :=
  run "Camera" "session-1" debug JS.LF integer_toString.

Definition demo_stdout_calls (debug : bool) : state -> list event -> list call :=
  stdout_calls "Camera" "session-1" debug JS.LF integer_toString.

(** A supervisor state in which streaming has started and the callback is
    consumed. *)
Definition streaming_state : state :=
  {| started := true; startTime := 0; callback := false; killTimeout := None;
     armed := ∅; next_timer := 0%nat; killed := false |}.

(** The calls by kind, and the events that end a process. *)
Definition is_stdin_write (c : call) : bool :=
  match c with stdin_write _ => true | _ => false end.

Definition is_setTimeout (c : call) : bool :=
  match c with setTimeout _ _ => true | _ => false end.

Definition is_clearTimeout (c : call) : bool :=
  match c with clearTimeout _ => true | _ => false end.

Definition is_process_exit (e : event) : bool :=
  match e with process_exit _ _ => true | _ => false end.

Definition is_process_error (e : event) : bool :=
  match e with process_error _ => true | _ => false end.

(** How often [stop()] is called in a lifetime. *)
Definition count_stops (es : list event) : nat :=
  List.length (List.filter is_stop es).

(** The other line terminator, and a line that holds neither CR nor LF. *)
Definition CRLF : string := JS.CR +:+ JS.LF.

Definition clean_line (line : string) : bool :=
  negb (has_char (JS.chr 13) line) && negb (has_char (JS.chr 10) line).

(** White space at the ends of a string. *)
Fixpoint all_whitespace (s : string) : bool :=
  match s with
  | String c s' => JS.isWhiteSpace c && all_whitespace s'
  | EmptyString => true
  end.

Definition starts_with_whitespace (s : string) : bool :=
  match s with
  | String c _ => JS.isWhiteSpace c
  | EmptyString => false
  end.

Fixpoint ends_with_whitespace (s : string) : bool :=
  match s with
  | String c EmptyString => JS.isWhiteSpace c
  | String _ s' => ends_with_whitespace s'
  | EmptyString => false
  end.




(** ** The string primitives *)

Lemma prefix_app (a s : string) :
  String.prefix a s = true <-> exists b, s = a +:+ b.
Proof.
  revert s; induction a as [|c a IH]; intros s.
  - split; [intros _; exists s; reflexivity | intros _; destruct s; reflexivity].
  - destruct s as [|c' s]; [split; [discriminate | intros [b Hb]; discriminate]|].
    change (String.prefix (String c a) (String c' s))
      with (if ascii_dec c c' then String.prefix a s else false).
    destruct (ascii_dec c c') as [->|Hne].
    + rewrite IH. split; intros [b Hb]; exists b; [rewrite Hb; reflexivity|].
      injection Hb; auto.
    + split; [discriminate | intros [b Hb]; injection Hb; congruence].
Qed.

Lemma indexOf_from_range (needle s : string) (i : Z) :
  JS.indexOf_from needle s i = -1 \/ i <= JS.indexOf_from needle s i.
Proof.
  revert i; induction s as [|c s IH]; intros i; cbn [JS.indexOf_from].
  - destruct (String.prefix needle ""); lia.
  - destruct (String.prefix needle (String c s)); [lia|].
    destruct (IH (i + 1)); lia.
Qed.

Lemma indexOf_zero (needle s : string) :
  JS.indexOf needle s = 0 <-> String.prefix needle s = true.
Proof.
  unfold JS.indexOf. destruct s as [|c s]; cbn [JS.indexOf_from].
  - destruct (String.prefix needle ""); split; (reflexivity || lia || discriminate).
  - destruct (String.prefix needle (String c s));
      [split; reflexivity|].
    pose proof (indexOf_from_range needle s (0 + 1)).
    split; [lia | discriminate].
Qed.

Lemma indexOf_from_found (needle s : string) (i : Z) :
  JS.indexOf_from needle s i <> -1 -> exists a b, s = a +:+ needle +:+ b.
Proof.
  revert i; induction s as [|c s IH]; intros i; cbn [JS.indexOf_from].
  - destruct (String.prefix needle "") eqn:Hp; [|congruence].
    intros _. apply prefix_app in Hp as [b Hb]. exists "", b. exact Hb.
  - destruct (String.prefix needle (String c s)) eqn:Hp.
    + intros _. apply prefix_app in Hp as [b Hb]. exists "", b. exact Hb.
    + intros H. destruct (IH _ H) as (a & b & ->). exists (String c a), b. reflexivity.
Qed.

Lemma indexOf_from_occurs (needle a b : string) (i : Z) :
  0 <= i -> JS.indexOf_from needle (a +:+ needle +:+ b) i <> -1.
Proof.
  revert i; induction a as [|c a IH]; intros i Hi.
  - assert (Hp : String.prefix needle ("" +:+ needle +:+ b) = true)
      by (apply prefix_app; exists b; reflexivity).
    destruct ("" +:+ needle +:+ b); cbn [JS.indexOf_from]; rewrite Hp; lia.
  - change (String c a +:+ needle +:+ b) with (String c (a +:+ needle +:+ b)).
    cbn [JS.indexOf_from].
    destruct (String.prefix needle (String c _)); [lia|].
    apply IH. lia.
Qed.

(** [includes] finds exactly the substrings. *)
Lemma includes_spec (needle s : string) :
  JS.includes needle s = true <-> exists a b, s = a +:+ needle +:+ b.
Proof.
  unfold JS.includes, JS.indexOf. rewrite negb_true_iff, Z.eqb_neq. split.
  - apply indexOf_from_found.
  - intros (a & b & ->). apply indexOf_from_occurs. lia.
Qed.

(** The pattern of the stderr handler matches the lines that contain one
    of the three bracketed tags. *)
Lemma match_severity_spec (line : string) :
  match_severity line = true <->
  exists tag a b, (tag = "panic" \/ tag = "fatal" \/ tag = "error")
                  /\ line = a +:+ "[" +:+ tag +:+ "]" +:+ b.
Proof.
  unfold match_severity. rewrite !orb_true_iff, !includes_spec. split.
  - intros [ [ (a & b & ->) | (a & b & ->) ] | (a & b & ->) ].
    + exists "panic", a, b. auto.
    + exists "fatal", a, b. auto.
    + exists "error", a, b. auto.
  - intros (tag & a & b & [ -> | [ -> | -> ] ] & ->); eauto.
Qed.

Lemma split_char_nonempty (sep : ascii) (s : string) : JS.split_char sep s <> [].
Proof.
  destruct s as [|c s]; simpl; [discriminate|].
  destruct (Ascii.eqb c sep); [discriminate|].
  destruct (JS.split_char sep s); discriminate.
Qed.

Lemma split_char_whole (sep : ascii) (s : string) :
  has_char sep s = false -> JS.split_char sep s = [s].
Proof.
  induction s as [|c s IH]; simpl; [reflexivity|].
  intros H. apply orb_false_iff in H as [Hc Hs].
  rewrite Hc, (IH Hs). reflexivity.
Qed.

Lemma split_char_first (sep : ascii) (k rest : string) :
  has_char sep k = false ->
  JS.split_char sep (k +:+ String sep rest) = k :: JS.split_char sep rest.
Proof.
  induction k as [|c k IH]; simpl.
  - intros _. rewrite Ascii.eqb_refl. reflexivity.
  - intros H. apply orb_false_iff in H as [Hc Hk].
    rewrite Hc, (IH Hk). reflexivity.
Qed.

(** ** [parseProgress]: the map of a chunk *)

Lemma line_without_eq (k : string) :
  has_char "=" k = false -> line_key k = k /\ line_value k = None.
Proof.
  intros Hk. unfold line_key, line_value, JS.split_limit.
  rewrite (split_char_whole _ _ Hk). split; reflexivity.
Qed.

Lemma line_with_one_eq (k v : string) :
  has_char "=" k = false -> has_char "=" v = false ->
  line_key (k +:+ "=" +:+ v) = k /\ line_value (k +:+ "=" +:+ v) = Some v.
Proof.
  intros Hk Hv. unfold line_key, line_value, JS.split_limit.
  change ("=" +:+ v) with (String "=" v).
  rewrite (split_char_first _ _ _ Hk), (split_char_whole _ _ Hv).
  split; reflexivity.
Qed.

Lemma line_with_more_eq (k v rest : string) :
  has_char "=" k = false -> has_char "=" v = false ->
  line_key (k +:+ "=" +:+ v +:+ "=" +:+ rest) = k
  /\ line_value (k +:+ "=" +:+ v +:+ "=" +:+ rest) = Some v.
Proof.
  intros Hk Hv. unfold line_key, line_value, JS.split_limit.
  change ("=" +:+ v +:+ "=" +:+ rest) with (String "=" (v +:+ String "=" rest)).
  rewrite (split_char_first _ _ _ Hk), (split_char_first _ _ _ Hv).
  split; reflexivity.
Qed.

Lemma Map_get_set_line (m : ProgressMap) (line : string) :
  Map_get (set_line m line) (line_key line) = line_value line.
Proof. unfold Map_get, set_line. rewrite lookup_insert_eq. reflexivity. Qed.

Lemma Map_get_set_line_ne (m : ProgressMap) (line key : string) :
  line_key line <> key -> Map_get (set_line m line) key = Map_get m key.
Proof.
  intros Hne. unfold Map_get, set_line. rewrite lookup_insert_ne by exact Hne.
  reflexivity.
Qed.

Lemma Map_get_later_lines (post : list string) (m : ProgressMap) (key : string) :
  Forall (fun l => line_key l <> key) post ->
  Map_get (fold_left set_line post m) key = Map_get m key.
Proof.
  revert m; induction post as [|l post IH]; intros m Hpost; [reflexivity|].
  inversion Hpost as [|? ? Hl Hrest]; subst. simpl.
  rewrite (IH _ Hrest). apply Map_get_set_line_ne, Hl.
Qed.

(** ** [parseProgress]: what the [try] block gives *)

Lemma parseProgress_try_spec (input : string) :
  parseProgress_try input =
  let m := progress_map input in
  match Map_get m "out_time", Map_get m "progress" with
  | Some t, Some p =>
      Normal {| frame := JS.parseInt (Map_get m "frame");
                fps := JS.parseFloat (Map_get m "fps");
                stream_q := JS.parseFloat (Map_get m "stream_0_0_q");
                bitrate := JS.parseFloat (Map_get m "bitrate");
                total_size := JS.parseInt (Map_get m "total_size");
                out_time_us := JS.parseInt (Map_get m "out_time_us");
                out_time := JS.trim t;
                dup_frames := JS.parseInt (Map_get m "dup_frames");
                drop_frames := JS.parseInt (Map_get m "drop_frames");
                speed := JS.parseFloat (Map_get m "speed");
                progress := JS.trim p |}
  | _, _ => Throw TypeError
  end.
Proof.
  unfold parseProgress_try. cbv zeta.
  destruct (Map_get (progress_map input) "out_time");
    destruct (Map_get (progress_map input) "progress"); reflexivity.
Qed.

Lemma parseProgress_frame_chunk (input : string) :
  JS.indexOf "frame=" input = 0 ->
  parseProgress input = try_catch (parseProgress_try input).
Proof. intros H. unfold parseProgress. rewrite H. reflexivity. Qed.

Lemma parseProgress_other_chunk (input : string) :
  JS.indexOf "frame=" input <> 0 -> parseProgress input = None.
Proof.
  intros H. unfold parseProgress.
  destruct (Z.eqb_spec (JS.indexOf "frame=" input) 0); [contradiction | reflexivity].
Qed.

Lemma parseProgress_None_iff (input : string) :
  JS.indexOf "frame=" input = 0 ->
  parseProgress input = None <->
  Map_get (progress_map input) "out_time" = None
  \/ Map_get (progress_map input) "progress" = None.
Proof.
  intros H. rewrite (parseProgress_frame_chunk _ H), parseProgress_try_spec.
  cbv zeta.
  destruct (Map_get (progress_map input) "out_time");
    destruct (Map_get (progress_map input) "progress"); simpl;
    split; auto; try discriminate; intros [?|?]; discriminate.
Qed.

(** C6.  The well-formed block of eleven lines parses to the report with
    frame 10, fps 25.0, stream_q 28.0, bitrate 512.3, total_size 10240,
    out_time_us 400000, out_time "00:00:00.40", dup_frames 0, drop_frames 0,
    speed 1.0 and progress "continue". *)
Theorem parseProgress_sample_block :
  parseProgress sample_block =
  Some {| frame := JS.Num 10%Q; fps := JS.Num 25%Q; stream_q := JS.Num 28%Q;
          bitrate := JS.Num (5123 # 10)%Q; total_size := JS.Num 10240%Q;
          out_time_us := JS.Num 400000%Q; out_time := "00:00:00.40";
          dup_frames := JS.Num 0%Q; drop_frames := JS.Num 0%Q;
          speed := JS.Num 1%Q; progress := "continue" |}.
Proof. vm_compute. reflexivity. Qed.

(** C1, as stated, fails: a block that begins with [frame=] and has no
    [speed=] line, and a block whose [fps] is not a number, both give a
    report, with NaN in that field. *)
Lemma parseProgress_reports_with_NaN :
  JS.indexOf "frame=" block_without_speed = 0
  /\ Map_has (progress_map block_without_speed) "speed" = false
  /\ (exists r, parseProgress block_without_speed = Some r
                /\ frame r = JS.Num 10%Q /\ speed r = JS.NaN)
  /\ JS.indexOf "frame=" block_with_bad_fps = 0
  /\ (exists r, parseProgress block_with_bad_fps = Some r
                /\ frame r = JS.Num 10%Q /\ fps r = JS.NaN).
Proof.
  split; [reflexivity|]. split; [vm_compute; reflexivity|].
  split; [eexists; split; [vm_compute; reflexivity | split; reflexivity]|].
  split; [reflexivity|].
  eexists; split; [vm_compute; reflexivity | split; reflexivity].
Qed.

(** C1, amended.  On a chunk that begins with [frame=], parseProgress gives
    no report when the lookup of [out_time] or of [progress] gives
    [undefined]; otherwise it gives the report whose numeric fields are
    [parseInt] or [parseFloat] of the looked-up values, and these are NaN,
    not a failure, for a missing key. *)
Theorem parseProgress_fails_on_string_keys_only (input : string) :
  JS.indexOf "frame=" input = 0 ->
  let m := progress_map input in
  (Map_get m "out_time" = None \/ Map_get m "progress" = None ->
   parseProgress input = None)
  /\ (forall t p, Map_get m "out_time" = Some t -> Map_get m "progress" = Some p ->
      parseProgress input =
      Some {| frame := JS.parseInt (Map_get m "frame");
              fps := JS.parseFloat (Map_get m "fps");
              stream_q := JS.parseFloat (Map_get m "stream_0_0_q");
              bitrate := JS.parseFloat (Map_get m "bitrate");
              total_size := JS.parseInt (Map_get m "total_size");
              out_time_us := JS.parseInt (Map_get m "out_time_us");
              out_time := JS.trim t;
              dup_frames := JS.parseInt (Map_get m "dup_frames");
              drop_frames := JS.parseInt (Map_get m "drop_frames");
              speed := JS.parseFloat (Map_get m "speed");
              progress := JS.trim p |})
  /\ JS.parseInt None = JS.NaN /\ JS.parseFloat None = JS.NaN.
Proof.
  intros H m. split; [|split; [|split; reflexivity]].
  - intros Hmiss. apply parseProgress_None_iff; assumption.
  - intros t p Ht Hp.
    rewrite (parseProgress_frame_chunk _ H), parseProgress_try_spec.
    cbv zeta. fold m. rewrite Ht, Hp. reflexivity.
Qed.

Lemma parseProgress_fails_on_string_keys_only_witness :
  JS.indexOf "frame=" block_without_speed = 0
  /\ parseProgress block_without_speed =
     Some {| frame := JS.Num 10%Q; fps := JS.Num 25%Q; stream_q := JS.Num 28%Q;
             bitrate := JS.Num (5123 # 10)%Q; total_size := JS.Num 10240%Q;
             out_time_us := JS.Num 400000%Q; out_time := "00:00:00.40";
             dup_frames := JS.Num 0%Q; drop_frames := JS.Num 0%Q;
             speed := JS.NaN; progress := "continue" |}.
Proof.
  split; [reflexivity|].
  destruct (parseProgress_fails_on_string_keys_only block_without_speed eq_refl)
    as (_ & Hreport & _).
  rewrite (Hreport "00:00:00.40" "continue");
    [vm_compute; reflexivity | vm_compute; reflexivity | vm_compute; reflexivity].
Defined.

(** C7, as stated, fails: the value of a line stops at the second [=], and
    a line without [=] gives one part, not two. *)
Lemma line_value_stops_at_second_eq :
  line_key "out_time=a=b" = "out_time"
  /\ line_value "out_time=a=b" = Some "a"
  /\ line_value "out_time=a=b" <> Some "a=b"
  /\ List.length (JS.split_limit "=" 2 "out_time") = 1%nat.
Proof.
  split; [reflexivity|]. split; [reflexivity|].
  split; [discriminate | reflexivity].
Qed.

(** C7, amended.  A line is split at every [=] and the first two pieces
    are kept: the key is the text before the first [=], the value the text
    between the first [=] and the second (or the end of the line), and a
    line without [=] has the whole line as key and no value.  Of the lines
    that carry a key, the last one decides what the map gives for it. *)
Theorem set_line_last_write_wins
  (k v rest input line : string) (pre post : list string) :
  has_char "=" k = false -> has_char "=" v = false ->
  JS.split_lines input = pre ++ line :: post ->
  Forall (fun l => line_key l <> line_key line) post ->
  (line_key k = k /\ line_value k = None)
  /\ (line_key (k +:+ "=" +:+ v) = k /\ line_value (k +:+ "=" +:+ v) = Some v)
  /\ (line_key (k +:+ "=" +:+ v +:+ "=" +:+ rest) = k
      /\ line_value (k +:+ "=" +:+ v +:+ "=" +:+ rest) = Some v)
  /\ Map_get (progress_map input) (line_key line) = line_value line.
Proof.
  intros Hk Hv Hlines Hpost.
  split; [apply line_without_eq, Hk|].
  split; [apply line_with_one_eq; assumption|].
  split; [apply line_with_more_eq; assumption|].
  unfold progress_map. rewrite Hlines, fold_left_app. simpl.
  rewrite (Map_get_later_lines _ _ _ Hpost). apply Map_get_set_line.
Qed.

Lemma set_line_last_write_wins_witness :
  line_value "frame=2=x" = Some "2"
  /\ Map_get (progress_map (unlines ["frame=1"; "frame=2"; "fps=3"])) "frame" = Some "2".
Proof.
  destruct (set_line_last_write_wins "frame" "2" "x"
              (unlines ["frame=1"; "frame=2"; "fps=3"]) "frame=2"
              ["frame=1"] ["fps=3"] eq_refl eq_refl eq_refl)
    as (_ & _ & (_ & Hvalue) & Hlast).
  - repeat constructor. vm_compute. discriminate.
  - split; [exact Hvalue | exact Hlast].
Defined.

(** C10, as stated, fails: with an [out_time] line that has no [=], both
    [out_time] and [progress] are keys of the map and there is still no
    report. *)
Lemma parseProgress_bare_out_time :
  JS.indexOf "frame=" block_with_bare_out_time = 0
  /\ Map_has (progress_map block_with_bare_out_time) "out_time" = true
  /\ Map_has (progress_map block_with_bare_out_time) "progress" = true
  /\ parseProgress block_with_bare_out_time = None.
Proof. repeat split; vm_compute; reflexivity. Qed.

(** C10, amended.  parseProgress gives a report or no report on every
    chunk, and an exception of its [try] block becomes "no report"; on a
    chunk that begins with [frame=] it gives no report exactly when the
    lookup of [out_time] or of [progress] gives [undefined] (the key is
    absent, or the last line that sets it has no [=]); a report has NaN in
    every numeric field whose key is absent. *)
Theorem parseProgress_total (input : string) :
  let m := progress_map input in
  ((exists r, parseProgress input = Some r) \/ parseProgress input = None)
  /\ (forall e, parseProgress_try input = Throw e -> parseProgress input = None)
  /\ (JS.indexOf "frame=" input = 0 ->
      (parseProgress input = None <->
       Map_get m "out_time" = None \/ Map_get m "progress" = None)
      /\ (Map_get m "out_time" = None <->
          Map_has m "out_time" = false \/ m !! "out_time" = Some None)
      /\ (Map_get m "progress" = None <->
          Map_has m "progress" = false \/ m !! "progress" = Some None)
      /\ forall r, parseProgress input = Some r ->
         (Map_has m "frame" = false -> frame r = JS.NaN)
         /\ (Map_has m "fps" = false -> fps r = JS.NaN)
         /\ (Map_has m "stream_0_0_q" = false -> stream_q r = JS.NaN)
         /\ (Map_has m "bitrate" = false -> bitrate r = JS.NaN)
         /\ (Map_has m "total_size" = false -> total_size r = JS.NaN)
         /\ (Map_has m "out_time_us" = false -> out_time_us r = JS.NaN)
         /\ (Map_has m "dup_frames" = false -> dup_frames r = JS.NaN)
         /\ (Map_has m "drop_frames" = false -> drop_frames r = JS.NaN)
         /\ (Map_has m "speed" = false -> speed r = JS.NaN)).
Proof.
  intros m.
  assert (Hget : forall key, Map_get m key = None <->
                   Map_has m key = false \/ m !! key = Some None).
  { intros key. unfold Map_get, Map_has. destruct (m !! key) as [[v|]|];
      split; auto; try discriminate; intros [?|?]; congruence. }
  assert (Habsent : forall key, Map_has m key = false -> Map_get m key = None)
    by (intros key Hk; apply Hget; auto).
  split; [destruct (parseProgress input); eauto|].
  split.
  { intros e He. unfold parseProgress. rewrite He.
    destruct (JS.indexOf "frame=" input =? 0); reflexivity. }
  intros H. split; [apply parseProgress_None_iff, H|].
  split; [apply Hget|]. split; [apply Hget|].
  intros r Hr. rewrite (parseProgress_frame_chunk _ H), parseProgress_try_spec in Hr.
  cbv zeta in Hr. fold m in Hr.
  destruct (Map_get m "out_time"); [|discriminate].
  destruct (Map_get m "progress"); [|discriminate].
  injection Hr as <-. cbn [frame fps stream_q bitrate total_size out_time_us
                            dup_frames drop_frames speed].
  repeat split; intros Hk; rewrite (Habsent _ Hk); reflexivity.
Qed.

Lemma parseProgress_total_witness :
  JS.indexOf "frame=" block_without_speed = 0
  /\ (exists r, parseProgress block_without_speed = Some r /\ speed r = JS.NaN)
  /\ parseProgress block_with_bare_out_time = None.
Proof.
  split; [reflexivity|].
  destruct (parseProgress_total block_without_speed) as (_ & _ & Hframe).
  destruct (Hframe eq_refl) as (_ & _ & _ & Hnan).
  destruct (parseProgress_total block_with_bare_out_time) as (_ & _ & Hframe').
  destruct (Hframe' eq_refl) as (Hnone & _).
  split.
  - destruct (parseProgress block_without_speed) as [r|] eqn:Hr;
      [|vm_compute in Hr; discriminate].
    exists r. split; [reflexivity|].
    apply (Hnan r eq_refl). vm_compute. reflexivity.
  - apply Hnone. left. vm_compute. reflexivity.
Defined.

(** ** Splitting a line at [=] *)

Lemma concat_cons_cons (sep a b : string) (ls : list string) :
  String.concat sep (a :: b :: ls) = a +:+ sep +:+ String.concat sep (b :: ls).
Proof. reflexivity. Qed.

Lemma split_char_join (sep : ascii) (s : string) :
  String.concat (String sep "") (JS.split_char sep s) = s.
Proof.
  induction s as [|c s IH]; [reflexivity|].
  cbn [JS.split_char]. destruct (Ascii.eqb_spec c sep) as [->|Hne].
  - destruct (JS.split_char sep s) as [|p ps] eqn:Hs;
      [destruct (split_char_nonempty _ _ Hs)|].
    rewrite concat_cons_cons, IH. reflexivity.
  - destruct (JS.split_char sep s) as [|p ps] eqn:Hs;
      [destruct (split_char_nonempty _ _ Hs)|].
    destruct ps as [|q qs]; simpl in *; rewrite <- IH; reflexivity.
Qed.

Lemma split_char_pieces (sep : ascii) (s : string) :
  Forall (fun p => has_char sep p = false) (JS.split_char sep s).
Proof.
  induction s as [|c s IH]; [repeat constructor|].
  cbn [JS.split_char]. destruct (Ascii.eqb c sep) eqn:Hc.
  - constructor; [reflexivity | exact IH].
  - destruct (JS.split_char sep s) as [|p ps]; [repeat constructor; simpl; rewrite Hc; reflexivity|].
    inversion IH as [|? ? Hp Hps]; subst. constructor; [|exact Hps].
    simpl. rewrite Hc, Hp. reflexivity.
Qed.

Lemma has_char_app (c : ascii) (a b : string) :
  has_char c (a +:+ b) = has_char c a || has_char c b.
Proof.
  induction a as [|x a IH]; [reflexivity|]. simpl. rewrite IH, orb_assoc. reflexivity.
Qed.

Lemma append_empty_r (s : string) : s +:+ "" = s.
Proof.
  induction s as [|c s IH]; [reflexivity|].
  change (String c (s +:+ "") = String c s). rewrite IH. reflexivity.
Qed.

Lemma append_assoc (a b c : string) : (a +:+ b) +:+ c = a +:+ b +:+ c.
Proof.
  induction a as [|x a IH]; [reflexivity|].
  change (String x ((a +:+ b) +:+ c) = String x (a +:+ b +:+ c)).
  rewrite IH. reflexivity.
Qed.

Lemma prefix_refl_app (a b : string) : String.prefix a (a +:+ b) = true.
Proof. apply prefix_app. exists b. reflexivity. Qed.

Lemma line_pieces (line : string) :
  has_char "=" (line_key line) = false
  /\ String.prefix (line_key line) line = true
  /\ (line_value line = None <-> has_char "=" line = false)
  /\ (line_value line = None -> line_key line = line)
  /\ (forall v, line_value line = Some v ->
      has_char "=" v = false
      /\ String.prefix (line_key line +:+ "=" +:+ v) line = true).
Proof.
  unfold line_key, line_value, JS.split_limit.
  pose proof (split_char_join "=" line) as Hjoin.
  pose proof (split_char_pieces "=" line) as Hpieces.
  destruct (JS.split_char "=" line) as [|k [|v rest]] eqn:Hs;
    [destruct (split_char_nonempty _ _ Hs)| |].
  - simpl in Hjoin. subst line. inversion_clear Hpieces as [|? ? Hk _].
    cbn [firstn hd nth_error].
    split; [exact Hk|].
    split; [rewrite <- (append_empty_r k) at 2; apply prefix_refl_app|].
    split; [split; auto|]. split; [reflexivity | discriminate].
  - inversion_clear Hpieces as [|? ? Hk Hrest].
    inversion_clear Hrest as [|? ? Hv _].
    cbn [firstn hd nth_error].
    assert (Hline : exists tail, line = k +:+ "=" +:+ v +:+ tail).
    { rewrite <- Hjoin. destruct rest as [|w ws].
      - exists "". rewrite append_empty_r. reflexivity.
      - exists ("=" +:+ String.concat "=" (w :: ws)). reflexivity. }
    destruct Hline as [tail Hline].
    split; [exact Hk|]. split; [rewrite Hline; apply prefix_refl_app|].
    split; [split; [discriminate|] |].
    + rewrite Hline, has_char_app. simpl. rewrite orb_true_r. discriminate.
    + split; [discriminate|]. intros v' [= <-]. split; [exact Hv|].
      rewrite Hline.
      replace (k +:+ "=" +:+ v +:+ tail) with ((k +:+ "=" +:+ v) +:+ tail)
        by (rewrite !append_assoc; reflexivity).
      apply prefix_refl_app.
Qed.

(** X2.  The key of a line holds no [=] and is a prefix of the line; the
    line has a value exactly when it holds a [=]; a line without value is
    its own key; and a value holds no [=] and follows the key and one [=]
    at the start of the line. *)
Theorem line_split_spec (line : string) :
  has_char "=" (line_key line) = false
  /\ String.prefix (line_key line) line = true
  /\ (line_value line = None <-> has_char "=" line = false)
  /\ (line_value line = None -> line_key line = line)
  /\ (forall v, line_value line = Some v ->
      has_char "=" v = false
      /\ String.prefix (line_key line +:+ "=" +:+ v) line = true).
Proof. exact (line_pieces line). Qed.

(** ** Splitting a chunk into lines *)

Lemma split_lines_cons (c : ascii) (s : string) :
  Ascii.eqb c (JS.chr 10) = false -> Ascii.eqb c (JS.chr 13) = false ->
  JS.split_lines (String c s) =
  match JS.split_lines s with
  | line :: lines => String c line :: lines
  | [] => [String c ""]
  end.
Proof.
  intros Hlf Hcr. cbn [JS.split_lines]. rewrite Hlf, Hcr.
  destruct s; reflexivity.
Qed.

Lemma clean_line_cons (c : ascii) (l : string) :
  clean_line (String c l) = true ->
  Ascii.eqb c (JS.chr 10) = false /\ Ascii.eqb c (JS.chr 13) = false
  /\ clean_line l = true.
Proof.
  unfold clean_line. cbn [has_char]. rewrite !negb_orb, !andb_true_iff, !negb_true_iff.
  intros [[Hcr Hl] [Hlf Hl']]. auto.
Qed.

Lemma split_lines_terminated (sep rest l : string) :
  sep = JS.LF \/ sep = CRLF -> clean_line l = true ->
  JS.split_lines (l +:+ sep +:+ rest) = l :: JS.split_lines rest.
Proof.
  intros Hsep. induction l as [|c l IH]; intros Hl.
  - destruct Hsep as [-> | ->]; reflexivity.
  - apply clean_line_cons in Hl as (Hlf & Hcr & Hl).
    change (String c l +:+ sep +:+ rest) with (String c (l +:+ sep +:+ rest)).
    rewrite (split_lines_cons _ _ Hlf Hcr), (IH Hl). reflexivity.
Qed.

Lemma split_lines_clean (l : string) :
  clean_line l = true -> JS.split_lines l = [l].
Proof.
  induction l as [|c l IH]; intros Hl; [reflexivity|].
  apply clean_line_cons in Hl as (Hlf & Hcr & Hl).
  rewrite (split_lines_cons _ _ Hlf Hcr), (IH Hl). reflexivity.
Qed.

Lemma split_lines_concat (sep : string) (ls : list string) :
  sep = JS.LF \/ sep = CRLF -> ls <> [] ->
  Forall (fun l => clean_line l = true) ls ->
  JS.split_lines (String.concat sep ls) = ls.
Proof.
  intros Hsep Hne Hls. induction Hls as [|l ls Hl Hls IH]; [contradiction|].
  destruct ls as [|l' ls'].
  - apply split_lines_clean, Hl.
  - rewrite concat_cons_cons, (split_lines_terminated _ _ _ Hsep Hl).
    rewrite IH by discriminate. reflexivity.
Qed.

Lemma split_lines_pieces (s : string) :
  Forall (fun l => has_char (JS.chr 10) l = false) (JS.split_lines s).
Proof.
  induction s as [|c s IH]; [repeat constructor|].
  cbn [JS.split_lines]. destruct (Ascii.eqb c (JS.chr 10)) eqn:Hlf.
  - constructor; [reflexivity | exact IH].
  - destruct s as [|c' s']; [repeat constructor; simpl; rewrite Hlf; reflexivity|].
    destruct (Ascii.eqb c (JS.chr 13) && Ascii.eqb c' (JS.chr 10)); [exact IH|].
    destruct (JS.split_lines (String c' s')) as [|line lines]; 
      [repeat constructor; simpl; rewrite Hlf; reflexivity|].
    inversion_clear IH as [|? ? Hline Hlines]. constructor; [|exact Hlines].
    simpl. rewrite Hlf, Hline. reflexivity.
Qed.

Lemma prefix_before (p l t : string) (c : ascii) :
  has_char c p = false ->
  String.prefix p (l +:+ String c t) = String.prefix p l.
Proof.
  revert l; induction p as [|a p IH]; intros l Hp.
  - destruct l; reflexivity.
  - simpl in Hp. apply orb_false_iff in Hp as [Hac Hp].
    destruct l as [|b l].
    + change ("" +:+ String c t) with (String c t). simpl.
      destruct (ascii_dec a c) as [->|]; [|reflexivity].
      rewrite Ascii.eqb_refl in Hac. discriminate.
    + change (String b l +:+ String c t) with (String b (l +:+ String c t)).
      simpl. destruct (ascii_dec a b); [apply IH, Hp | reflexivity].
Qed.

Lemma indexOf_eqb_prefix (needle s : string) :
  (JS.indexOf needle s =? 0) = String.prefix needle s.
Proof.
  destruct (String.prefix needle s) eqn:Hp.
  - apply Z.eqb_eq, indexOf_zero, Hp.
  - apply Z.eqb_neq. intros H. apply indexOf_zero in H. congruence.
Qed.

Lemma parseProgress_by_map (a b : string) :
  String.prefix "frame=" a = String.prefix "frame=" b ->
  progress_map a = progress_map b ->
  parseProgress a = parseProgress b.
Proof.
  intros Hp Hm. unfold parseProgress, parseProgress_try.
  rewrite !indexOf_eqb_prefix, Hp, Hm. reflexivity.
Qed.

Lemma prefix_first_line (sep : string) (l : string) (ls : list string) :
  sep = JS.LF \/ sep = CRLF ->
  String.prefix "frame=" (String.concat sep (l :: ls)) = String.prefix "frame=" l.
Proof.
  intros Hsep. destruct ls as [|l' ls']; [reflexivity|].
  rewrite concat_cons_cons.
  destruct Hsep as [-> | ->]; apply prefix_before; reflexivity.
Qed.

(** X3.  Lines that hold neither CR nor LF are read back unchanged whether
    they are joined by CRLF or by LF, and parseProgress gives the same
    result for both. *)
Theorem line_terminator_style (ls : list string) :
  ls <> [] -> Forall (fun l => clean_line l = true) ls ->
  JS.split_lines (String.concat CRLF ls) = ls
  /\ JS.split_lines (String.concat JS.LF ls) = ls
  /\ progress_map (String.concat CRLF ls) = fold_left set_line ls ∅
  /\ parseProgress (String.concat CRLF ls) = parseProgress (String.concat JS.LF ls).
Proof.
  intros Hne Hls.
  assert (Hcrlf := split_lines_concat CRLF ls (or_intror eq_refl) Hne Hls).
  assert (Hlf := split_lines_concat JS.LF ls (or_introl eq_refl) Hne Hls).
  split; [exact Hcrlf|]. split; [exact Hlf|].
  split; [unfold progress_map; rewrite Hcrlf; reflexivity|].
  apply parseProgress_by_map.
  - destruct ls as [|l ls']; [contradiction|].
    rewrite !prefix_first_line by auto. reflexivity.
  - unfold progress_map. rewrite Hcrlf, Hlf. reflexivity.
Qed.

Lemma line_terminator_style_witness :
  parseProgress (String.concat CRLF ["frame=3"; "out_time=00:00:01"; "progress=end"])
  = parseProgress (String.concat JS.LF ["frame=3"; "out_time=00:00:01"; "progress=end"]).
Proof.
  apply (line_terminator_style ["frame=3"; "out_time=00:00:01"; "progress=end"]).
  - discriminate.
  - repeat constructor.
Defined.

Lemma has_char_prefix (c : ascii) (p s : string) :
  String.prefix p s = true -> has_char c s = false -> has_char c p = false.
Proof.
  intros Hp Hs. apply prefix_app in Hp as [b ->].
  rewrite has_char_app in Hs. apply orb_false_iff in Hs as [Hs _]. exact Hs.
Qed.

Lemma set_line_entries (m : ProgressMap) (line : string) :
  has_char (JS.chr 10) line = false ->
  (forall key v, m !! key = Some v ->
     has_char "=" key = false /\ has_char (JS.chr 10) key = false
     /\ forall w, v = Some w -> has_char "=" w = false /\ has_char (JS.chr 10) w = false) ->
  forall key v, set_line m line !! key = Some v ->
     has_char "=" key = false /\ has_char (JS.chr 10) key = false
     /\ forall w, v = Some w -> has_char "=" w = false /\ has_char (JS.chr 10) w = false.
Proof.
  intros Hline Hm key v. unfold set_line.
  destruct (decide (line_key line = key)) as [<-|Hne].
  - rewrite lookup_insert_eq. intros [= <-].
    destruct (line_pieces line) as (Hk & Hpre & _ & _ & Hv).
    split; [exact Hk|]. split; [exact (has_char_prefix _ _ _ Hpre Hline)|].
    intros w Hw. destruct (Hv w Hw) as [Hw1 Hw2]. split; [exact Hw1|].
    pose proof (has_char_prefix _ _ _ Hw2 Hline) as H.
    rewrite !has_char_app in H. apply orb_false_iff in H as [_ H].
    apply orb_false_iff in H as [_ H]. exact H.
  - rewrite lookup_insert_ne by exact Hne. apply Hm.
Qed.

Lemma fold_set_line_entries (ls : list string) (m : ProgressMap) :
  Forall (fun l => has_char (JS.chr 10) l = false) ls ->
  (forall key v, m !! key = Some v ->
     has_char "=" key = false /\ has_char (JS.chr 10) key = false
     /\ forall w, v = Some w -> has_char "=" w = false /\ has_char (JS.chr 10) w = false) ->
  forall key v, fold_left set_line ls m !! key = Some v ->
     has_char "=" key = false /\ has_char (JS.chr 10) key = false
     /\ forall w, v = Some w -> has_char "=" w = false /\ has_char (JS.chr 10) w = false.
Proof.
  intros Hls. revert m. induction Hls as [|l ls Hl Hls IH]; intros m Hm; [exact Hm|].
  simpl. apply IH. apply set_line_entries; assumption.
Qed.

(** X6.  No key of the map of a chunk holds a [=] or a LF, and no value
    does. *)
Theorem progress_map_entries (input key : string) (v : option string) :
  progress_map input !! key = Some v ->
  has_char "=" key = false /\ has_char (JS.chr 10) key = false
  /\ forall w, v = Some w -> has_char "=" w = false /\ has_char (JS.chr 10) w = false.
Proof.
  unfold progress_map. apply fold_set_line_entries; [apply split_lines_pieces|].
  intros key' v' H. rewrite lookup_empty in H. discriminate.
Qed.

Lemma progress_map_entries_witness :
  progress_map "frame=1=2" !! "frame" = Some (Some "1")
  /\ has_char "=" "frame" = false.
Proof.
  split; [vm_compute; reflexivity|].
  destruct (progress_map_entries "frame=1=2" "frame" (Some "1")
              ltac:(vm_compute; reflexivity)) as [Hkey _].
  exact Hkey.
Defined.

(** ** The string fields and the prefix *)

Lemma trimStart_spec (s : string) :
  exists a, s = a +:+ JS.trimStart s /\ all_whitespace a = true
            /\ starts_with_whitespace (JS.trimStart s) = false.
Proof.
  induction s as [|c s (a & Ha & Hws & Hstart)]; [exists ""; repeat split|].
  cbn [JS.trimStart]. destruct (JS.isWhiteSpace c) eqn:Hc.
  - exists (String c a). split; [|split; [|exact Hstart]].
    + change (String c a +:+ JS.trimStart s) with (String c (a +:+ JS.trimStart s)).
      rewrite <- Ha. reflexivity.
    + simpl. rewrite Hc. exact Hws.
  - exists "". split; [reflexivity|]. split; [reflexivity | exact Hc].
Qed.

Lemma trimEnd_spec (s : string) :
  exists b, s = JS.trimEnd s +:+ b /\ all_whitespace b = true
            /\ ends_with_whitespace (JS.trimEnd s) = false
            /\ (starts_with_whitespace s = false ->
                starts_with_whitespace (JS.trimEnd s) = false).
Proof.
  induction s as [|c s (b & Hb & Hws & Hend & _)]; [exists ""; repeat split|].
  cbn [JS.trimEnd]. destruct (JS.trimEnd s) as [|d u] eqn:Ht.
  - destruct (JS.isWhiteSpace c) eqn:Hc.
    + exists (String c b). split; [|split; [|split; [reflexivity|]]].
      * change ("" +:+ String c b) with (String c b). f_equal. exact Hb.
      * simpl. rewrite Hc. exact Hws.
      * simpl. congruence.
    + exists b. split; [|split; [exact Hws|split; [exact Hc|intros _; exact Hc]]].
      change (String c "" +:+ b) with (String c ("" +:+ b)). f_equal. exact Hb.
  - exists b. split; [|split; [exact Hws|split; [exact Hend|intros H; exact H]]].
    change (String c (String d u) +:+ b) with (String c (String d u +:+ b)).
    f_equal. exact Hb.
Qed.

(** The whole of [trim]: white space is cut at both ends, and nothing else. *)
Lemma trim_spec (s : string) :
  exists a b, s = a +:+ JS.trim s +:+ b
              /\ all_whitespace a = true /\ all_whitespace b = true
              /\ starts_with_whitespace (JS.trim s) = false
              /\ ends_with_whitespace (JS.trim s) = false.
Proof.
  unfold JS.trim.
  destruct (trimStart_spec s) as (a & Ha & Hwa & Hstart).
  destruct (trimEnd_spec (JS.trimStart s)) as (b & Hb & Hwb & Hend & Hkeep).
  exists a, b. split; [rewrite <- Hb; exact Ha|]. auto.
Qed.

(** X4.  In a report, [out_time] and [progress] are the values looked up
    under these keys with the white space at both ends removed and nothing
    else changed. *)
Theorem parseProgress_string_fields (input : string) (r : FfmpegProgress) :
  parseProgress input = Some r ->
  (exists raw a b, Map_get (progress_map input) "out_time" = Some raw
      /\ raw = a +:+ out_time r +:+ b
      /\ all_whitespace a = true /\ all_whitespace b = true
      /\ starts_with_whitespace (out_time r) = false
      /\ ends_with_whitespace (out_time r) = false)
  /\ (exists raw a b, Map_get (progress_map input) "progress" = Some raw
      /\ raw = a +:+ progress r +:+ b
      /\ all_whitespace a = true /\ all_whitespace b = true
      /\ starts_with_whitespace (progress r) = false
      /\ ends_with_whitespace (progress r) = false).
Proof.
  intros Hr. unfold parseProgress in Hr.
  destruct (JS.indexOf "frame=" input =? 0); [|discriminate].
  rewrite parseProgress_try_spec in Hr. cbv zeta in Hr.
  destruct (Map_get (progress_map input) "out_time") as [t|]; [|discriminate].
  destruct (Map_get (progress_map input) "progress") as [p|]; [|discriminate].
  injection Hr as <-. cbn [out_time progress]. split.
  - destruct (trim_spec t) as (a & b & H). exists t, a, b. split; [reflexivity | exact H].
  - destruct (trim_spec p) as (a & b & H). exists p, a, b. split; [reflexivity | exact H].
Qed.

Lemma parseProgress_string_fields_witness :
  exists r, parseProgress ("frame=1" +:+ CRLF +:+ "out_time= 00:01 " +:+ JS.CR +:+ CRLF
                           +:+ "progress=end ") = Some r
            /\ out_time r = "00:01" /\ progress r = "end"
            /\ ends_with_whitespace (out_time r) = false.
Proof.
  eexists. split; [vm_compute; reflexivity|]. split; [reflexivity|]. split; [reflexivity|].
  destruct (parseProgress_string_fields
              ("frame=1" +:+ CRLF +:+ "out_time= 00:01 " +:+ JS.CR +:+ CRLF +:+ "progress=end ")
              _ ltac:(vm_compute; reflexivity)) as [(_ & _ & _ & _ & _ & _ & _ & _ & H) _].
  exact H.
Defined.

(** X1.  A chunk that gives a report begins with [frame=]. *)
Theorem parseProgress_needs_frame_prefix (input : string) (r : FfmpegProgress) :
  parseProgress input = Some r -> exists rest, input = "frame=" +:+ rest.
Proof.
  intros Hr. apply prefix_app, indexOf_zero.
  destruct (Z.eq_dec (JS.indexOf "frame=" input) 0) as [H|H]; [exact H|].
  rewrite (parseProgress_other_chunk _ H) in Hr. discriminate.
Qed.

Lemma parseProgress_needs_frame_prefix_witness :
  exists rest, sample_block = "frame=" +:+ rest.
Proof.
  destruct (parseProgress sample_block) as [r|] eqn:Hr; [|vm_compute in Hr; discriminate].
  exact (parseProgress_needs_frame_prefix sample_block r Hr).
Defined.

(** ** Numbers in decimal *)










(** ** The supervisor: one lifetime *)

Section SupervisorFacts.

Variables cameraName sessionId : string.
Variable debug : bool.
Variable EOL : string.
Variable Number_toString : JS.number -> string.

Local Abbreviation handle := (handle cameraName sessionId debug EOL Number_toString).
Local Abbreviation run := (run cameraName sessionId debug EOL Number_toString).
Local Abbreviation stdout_calls :=
  (stdout_calls cameraName sessionId debug EOL Number_toString).
Local Abbreviation stdout_step_calls :=
  (stdout_step_calls cameraName sessionId debug EOL Number_toString).
Local Abbreviation startup_log := (startup_log cameraName debug Number_toString).
Local Abbreviation startup_message := (startup_message Number_toString).
Local Abbreviation exit_message := (exit_message Number_toString).

Lemma run_app (s : state) (es1 es2 : list event) :
  run s (es1 ++ es2) =
  (fst (run (fst (run s es1)) es2),
   snd (run s es1) ++ snd (run (fst (run s es1)) es2)).
Proof.
  revert s; induction es1 as [|e es1 IH]; intros s; simpl.
  - destruct (run s es2); reflexivity.
  - destruct (handle s e) as [s1 c1]. rewrite IH.
    destruct (run s1 es1) as [s2 c2]. simpl.
    rewrite app_assoc. reflexivity.
Qed.

Lemma run_cons (s : state) (e : event) (es : list event) :
  run s (e :: es) =
  (fst (run (fst (handle s e)) es),
   snd (handle s e) ++ snd (run (fst (handle s e)) es)).
Proof.
  simpl. destruct (handle s e) as [s1 c1]. simpl.
  destruct (run s1 es); reflexivity.
Qed.

Lemma startup_log_is_log (t : Q) : is_log (startup_log t) = true.
Proof.
  unfold FfmpegStreamingProcess.startup_log.
  destruct (JS.lt _ _); [reflexivity|]. destruct (JS.lt _ _); reflexivity.
Qed.

(** Only the timer callback calls [process.kill]. *)
Lemma handle_process_kill (s : state) (e : event) :
  List.filter is_process_kill (snd (handle s e)) =
  match e with
  | timeout id _ => if bool_decide (id ∈ armed s) then [process_kill "SIGKILL"] else []
  | _ => []
  end.
Proof.
  destruct e as [data now|line|message|code signal|id r|]; simpl.
  - unfold on_stdout_data. destruct (parseProgress data); [|reflexivity].
    destruct (negb (started s) && _); [|reflexivity]. simpl.
    pose proof (startup_log_is_log (runtime_seconds now (startTime s))) as Hl.
    destruct (startup_log _); try discriminate; reflexivity.
  - destruct (callback s), debug, (match_severity line); reflexivity.
  - destruct (callback s); reflexivity.
  - destruct (killTimeout s), (code_is code 0), (bool_decide (code = None)),
      (code_is code 255), (killed s), (started s), (callback s); reflexivity.
  - unfold on_timeout. destruct (bool_decide (id ∈ armed s)); reflexivity.
  - reflexivity.
Qed.

Lemma cleared_no_calls (s : state) (keep : call -> bool) :
  (forall t, keep (clearTimeout t) = false) ->
  List.filter keep (match killTimeout s with Some t => [clearTimeout t] | None => [] end) = [].
Proof.
  intros Hkeep. destruct (killTimeout s) as [t|]; simpl; [rewrite Hkeep|]; reflexivity.
Qed.

Lemma code_is_false (code n : Z) : code <> n -> code_is (Some code) n = false.
Proof. intros H. simpl. apply Z.eqb_neq, H. Qed.

(** C2.  The ready callback is invoked twice in one lifetime when the
    child reports an error and then exits with code 1, when it exits with
    code 1 before any output and a stderr line is delivered after the exit,
    and when it reports an error and a stderr line follows: only the stderr
    handler clears [callback]. *)
Theorem ready_callback_invoked_twice (now : Z) (line message : string) :
  List.filter is_callback_call
    (snd (run (init true now) [process_error message; process_exit (Some 1) None]))
  = [callback_call (Some "FFmpeg process creation failed");
     callback_call (Some (exit_message (Some 1) None))]
  /\ List.filter is_callback_call
       (snd (run (init true now) [process_exit (Some 1) None; stderr_line line]))
     = [callback_call (Some (exit_message (Some 1) None)); callback_call None]
  /\ List.filter is_callback_call
       (snd (run (init true now) [process_error message; stderr_line line]))
     = [callback_call (Some "FFmpeg process creation failed"); callback_call None].
Proof.
  split; [reflexivity|].
  split; simpl; destruct debug, (match_severity line); reflexivity.
Qed.

(** C3.  On an exit with a code that is neither 0 nor 255: when [started]
    is false and the ready callback is pending, the handler logs the error,
    calls [stopStream] and invokes the callback with an error, and does not
    call [forceStopStream]; when [started] is true it logs the error and
    calls [stopStream] and [forceStopStream], and does not invoke the
    callback. *)
Theorem exit_with_error_code (s : state) (code : Z) (signal : option string) :
  code <> 0 -> code <> 255 ->
  let message := exit_message (Some code) signal in
  let cleared := match killTimeout s with Some t => [clearTimeout t] | None => [] end in
  let calls := snd (handle s (process_exit (Some code) signal)) in
  (started s = false -> callback s = true ->
   calls = cleared ++ [log_error (message +:+ " (Error)") cameraName;
                       stopStream sessionId; callback_call (Some message)]
   /\ List.filter is_delegate_call calls = [stopStream sessionId]
   /\ List.filter is_callback_call calls = [callback_call (Some message)])
  /\ (started s = true ->
      calls = cleared ++ [log_error (message +:+ " (Error)") cameraName;
                          stopStream sessionId; forceStopStream sessionId]
      /\ List.filter is_delegate_call calls = [stopStream sessionId; forceStopStream sessionId]
      /\ List.filter is_callback_call calls = []).
Proof.
  intros H0 H255 message cleared calls.
  assert (Hcalls : calls = cleared ++
            [log_error (message +:+ " (Error)") cameraName; stopStream sessionId]
            ++ (if negb (started s) && callback s then [callback_call (Some message)]
                else [forceStopStream sessionId])).
  { unfold calls. cbn [FfmpegStreamingProcess.handle on_process_exit snd].
    rewrite (code_is_false _ _ H0), (code_is_false _ _ H255), andb_false_r.
    reflexivity. }
  split.
  - intros Hs Hc. rewrite Hcalls, Hs, Hc. simpl. split; [reflexivity|].
    rewrite !List.filter_app. unfold cleared.
    rewrite !cleared_no_calls by reflexivity. split; reflexivity.
  - intros Hs. rewrite Hcalls, Hs. simpl. split; [reflexivity|].
    rewrite !List.filter_app. unfold cleared.
    rewrite !cleared_no_calls by reflexivity. split; reflexivity.
Qed.

(** C8, amended.  On an exit with no code or with code 255: when
    [process.killed] is set, which only a [process.kill] of the kill timer
    does, the handler logs "(Forced)" at debug level; otherwise, also after
    a [stop()] whose timer has not fired, it logs "(Unexpected)" at error
    level; it calls no delegate method in either case. *)
Theorem exit_killed_or_unexpected (s : state) (code : option Z) (signal : option string) :
  code = None \/ code = Some 255 ->
  let message := exit_message code signal in
  let cleared := match killTimeout s with Some t => [clearTimeout t] | None => [] end in
  let calls := snd (handle s (process_exit code signal)) in
  (killed s = true ->
   calls = cleared ++ [log_debug (message +:+ " (Forced)") cameraName debug])
  /\ (killed s = false ->
      calls = cleared ++ [log_error (message +:+ " (Unexpected)") cameraName])
  /\ List.filter is_delegate_call calls = [].
Proof.
  intros Hcode message cleared calls.
  assert (Hcalls : calls = cleared ++
            (if killed s then [log_debug (message +:+ " (Forced)") cameraName debug]
             else [log_error (message +:+ " (Unexpected)") cameraName])).
  { unfold calls. cbn [FfmpegStreamingProcess.handle on_process_exit snd].
    destruct Hcode as [->| ->]; simpl; rewrite ?andb_false_r, ?orb_true_r;
      reflexivity. }
  split; [intros Hk; rewrite Hcalls, Hk; reflexivity|].
  split; [intros Hk; rewrite Hcalls, Hk; reflexivity|].
  rewrite Hcalls, List.filter_app. unfold cleared.
  rewrite cleared_no_calls by reflexivity. destruct (killed s); reflexivity.
Qed.

(** *** The ready callback and the stderr handler *)

Lemma handle_keeps_callback (s : state) (e : event) :
  is_stderr_line e = false -> callback (fst (handle s e)) = callback s.
Proof.
  destruct e as [data now|line|message|code signal|id r|]; simpl;
    try reflexivity; try discriminate; intros _.
  - unfold on_stdout_data. destruct (parseProgress data); [|reflexivity].
    destruct (negb (started s) && _); reflexivity.
  - unfold on_timeout. destruct (bool_decide (id ∈ armed s)); reflexivity.
Qed.

Lemma run_keeps_callback (s : state) (es : list event) :
  Forall (fun e => is_stderr_line e = false) es ->
  callback (fst (run s es)) = callback s.
Proof.
  revert s; induction es as [|e es IH]; intros s Hes; [reflexivity|].
  inversion Hes as [|? ? He Hrest]; subst.
  rewrite run_cons. cbn [fst]. rewrite (IH _ Hrest). apply handle_keeps_callback, He.
Qed.

(** C9.  A stderr line is logged at error level when debug mode is on and
    the line matches the pattern of the three tags, and is not logged at
    all when debug mode is off; in both modes a pending ready callback is
    invoked with no argument, before any log, and cleared; and at the first
    stderr line of a lifetime the callback passed to the constructor is
    still pending. *)
Theorem stderr_line_handling (s : state) (line : string) (now : Z) (pre : list event) :
  Forall (fun e => is_stderr_line e = false) pre ->
  let calls := snd (handle s (stderr_line line)) in
  (debug = true -> match_severity line = true ->
   List.filter is_log calls = [log_error line cameraName])
  /\ (debug = false -> List.filter is_log calls = [])
  /\ (callback s = true -> calls = callback_call None :: List.filter is_log calls)
  /\ callback (fst (handle s (stderr_line line))) = false
  /\ callback (fst (run (init true now) pre)) = true.
Proof.
  intros Hpre calls. unfold calls. cbn [FfmpegStreamingProcess.handle on_stderr_line fst snd].
  split; [|split; [|split; [|split]]].
  - intros Hd Hm. rewrite Hd, Hm. destruct (callback s); reflexivity.
  - intros Hd. rewrite Hd. destruct (callback s); reflexivity.
  - intros Hc. rewrite Hc. destruct debug, (match_severity line); reflexivity.
  - reflexivity.
  - rewrite (run_keeps_callback _ _ Hpre). reflexivity.
Qed.

(** *** The first frames *)

Lemma Qlt_bool_iff (x y : Q) : JS.Qlt_bool x y = true <-> (x < y)%Q.
Proof.
  unfold JS.Qlt_bool. rewrite negb_true_iff. split.
  - intros H. apply Qnot_le_lt. intros Hle.
    apply Qle_bool_iff in Hle. congruence.
  - intros H. destruct (Qle_bool y x) eqn:Hle; [|reflexivity].
    apply Qle_bool_iff in Hle. exfalso. exact (Qlt_not_le _ _ H Hle).
Qed.

Lemma startup_log_level (t : Q) :
  ((t < 5)%Q -> startup_log t = log_debug (startup_message t) cameraName debug)
  /\ ((5 <= t)%Q -> (t < 22)%Q ->
      startup_log t = log_warn (startup_message t) cameraName)
  /\ ((22 <= t)%Q -> startup_log t = log_error (startup_message t) cameraName).
Proof.
  unfold FfmpegStreamingProcess.startup_log. cbn [JS.lt JS.of_Z].
  change (inject_Z 5) with 5%Q. change (inject_Z 22) with 22%Q.
  split; [|split].
  - intros H. apply Qlt_bool_iff in H. rewrite H. reflexivity.
  - intros H5 H22. destruct (JS.Qlt_bool t 5) eqn:E5.
    + apply Qlt_bool_iff in E5. exfalso. exact (Qlt_not_le _ _ E5 H5).
    + apply Qlt_bool_iff in H22. rewrite H22. reflexivity.
  - intros H. destruct (JS.Qlt_bool t 5) eqn:E5.
    + apply Qlt_bool_iff in E5. exfalso. apply (Qlt_not_le _ _ E5).
      apply Qle_trans with (y := 22%Q); [discriminate | exact H].
    + destruct (JS.Qlt_bool t 22) eqn:E22; [|reflexivity].
      apply Qlt_bool_iff in E22. exfalso. exact (Qlt_not_le _ _ E22 H).
Qed.

Lemma handle_startTime (s : state) (e : event) :
  startTime (fst (handle s e)) = startTime s.
Proof.
  destruct e as [data now|line|message|code signal|id r|]; simpl; try reflexivity.
  - unfold on_stdout_data. destruct (parseProgress data); [|reflexivity].
    destruct (negb (started s) && _); reflexivity.
  - unfold on_timeout. destruct (bool_decide (id ∈ armed s)); reflexivity.
Qed.

(** Before the first frames nothing is logged by the stdout handler and
    [started] stays as it is. *)
Lemma handle_no_frames (s : state) (e : event) :
  has_frames e = false ->
  started (fst (handle s e)) = started s /\ stdout_step_calls s e = [].
Proof.
  destruct e as [data now|line|message|code signal|id r|];
    cbn [has_frames FfmpegStreamingProcess.handle FfmpegStreamingProcess.stdout_step_calls];
    try (intros _; split; reflexivity).
  - unfold on_stdout_data. destruct (parseProgress data) as [r|];
      [|intros _; split; reflexivity].
    intros ->. rewrite andb_false_r. split; reflexivity.
  - intros _. unfold on_timeout.
    destruct (bool_decide (id ∈ armed s)); split; reflexivity.
Qed.

(** Once [started] is set it stays set and the stdout handler is silent. *)
Lemma handle_started (s : state) (e : event) :
  started s = true ->
  started (fst (handle s e)) = true /\ stdout_step_calls s e = [].
Proof.
  intros Hs.
  destruct e as [data now|line|message|code signal|id r|]; simpl;
    try (split; [exact Hs | reflexivity]).
  - unfold on_stdout_data. rewrite Hs. simpl.
    destruct (parseProgress data); split; (exact Hs || reflexivity).
  - unfold on_timeout.
    destruct (bool_decide (id ∈ armed s)); split; (exact Hs || reflexivity).
Qed.

Lemma stdout_calls_app (s : state) (es1 es2 : list event) :
  stdout_calls s (es1 ++ es2) =
  stdout_calls s es1 ++ stdout_calls (fst (run s es1)) es2.
Proof.
  revert s; induction es1 as [|e es1 IH]; intros s; [reflexivity|].
  rewrite run_cons. cbn [fst]. simpl. rewrite IH, app_assoc. reflexivity.
Qed.

Lemma stdout_calls_no_frames (s : state) (es : list event) :
  Forall (fun e => has_frames e = false) es ->
  stdout_calls s es = []
  /\ started (fst (run s es)) = started s
  /\ startTime (fst (run s es)) = startTime s.
Proof.
  revert s; induction es as [|e es IH]; intros s Hes; [repeat split|].
  inversion Hes as [|? ? He Hrest]; subst.
  destruct (handle_no_frames s e He) as [Hstarted Hcalls].
  destruct (IH (fst (handle s e)) Hrest) as (IH1 & IH2 & IH3).
  rewrite run_cons. cbn [fst FfmpegStreamingProcess.stdout_calls].
  rewrite Hcalls, IH1, IH2, IH3, Hstarted, handle_startTime. repeat split.
Qed.

Lemma stdout_calls_started (s : state) (es : list event) :
  started s = true -> stdout_calls s es = [].
Proof.
  revert s; induction es as [|e es IH]; intros s Hs; [reflexivity|].
  destruct (handle_started s e Hs) as [Hstarted Hcalls].
  cbn [FfmpegStreamingProcess.stdout_calls]. rewrite Hcalls, (IH _ Hstarted). reflexivity.
Qed.

(** C5.  In a lifetime, the first stdout chunk that parses to a report
    with [frame > 0] makes the stdout handler log "Getting the first frames
    took t seconds." once, where t is the time since the constructor in
    seconds: at debug level for t < 5, at warning level for 5 <= t < 22, at
    error level for t >= 22; the handler logs nothing before that chunk and
    nothing after it. *)
Theorem first_frames_logged_once
  (has_callback : bool) (start now : Z) (pre post : list event)
  (data : string) (r : FfmpegProgress) :
  Forall (fun e => has_frames e = false) pre ->
  parseProgress data = Some r ->
  JS.gt (frame r) (JS.of_Z 0) = true ->
  let t := runtime_seconds now start in
  (t == (now - start) # 1000)%Q
  /\ stdout_calls (init has_callback start) (pre ++ stdout_data data now :: post)
     = [startup_log t]
  /\ ((t < 5)%Q -> startup_log t = log_debug (startup_message t) cameraName debug)
  /\ ((5 <= t)%Q -> (t < 22)%Q ->
      startup_log t = log_warn (startup_message t) cameraName)
  /\ ((22 <= t)%Q -> startup_log t = log_error (startup_message t) cameraName)
  /\ startup_message t =
     "Getting the first frames took " +:+ Number_toString (JS.Num t) +:+ " seconds.".
Proof.
  intros Hpre Hr Hframe t.
  split; [apply Qred_correct|].
  split; [|split; [apply startup_log_level|split; [apply startup_log_level|
           split; [apply startup_log_level | reflexivity]]]].
  destruct (stdout_calls_no_frames (init has_callback start) pre Hpre)
    as (Hquiet & Hstarted & Hstart).
  rewrite stdout_calls_app, Hquiet. cbn [FfmpegStreamingProcess.stdout_calls app].
  set (s := fst (run (init has_callback start) pre)) in *.
  assert (Hstep : handle s (stdout_data data now) =
            ({| started := true; startTime := startTime s; callback := callback s;
                killTimeout := killTimeout s; armed := armed s;
                next_timer := next_timer s; killed := killed s |},
             [startup_log (runtime_seconds now (startTime s))])).
  { cbn [FfmpegStreamingProcess.handle]. unfold on_stdout_data.
    rewrite Hr, Hstarted, Hframe. reflexivity. }
  unfold FfmpegStreamingProcess.stdout_step_calls. rewrite Hstep. cbn [fst snd].
  rewrite stdout_calls_started by reflexivity.
  rewrite Hstart. reflexivity.
Qed.

(** *** [stop()] and the kill timer *)

Lemma handle_output (s : state) (e : event) :
  is_output e = true ->
  armed (fst (handle s e)) = armed s
  /\ killTimeout (fst (handle s e)) = killTimeout s
  /\ next_timer (fst (handle s e)) = next_timer s.
Proof.
  destruct e as [data now|line|message|code signal|id r|]; simpl;
    try discriminate; intros _; try (repeat split; reflexivity).
  unfold on_stdout_data. destruct (parseProgress data); [|repeat split].
  destruct (negb (started s) && _); repeat split.
Qed.

Lemma run_output (s : state) (es : list event) :
  Forall (fun e => is_output e = true) es ->
  armed (fst (run s es)) = armed s
  /\ killTimeout (fst (run s es)) = killTimeout s
  /\ next_timer (fst (run s es)) = next_timer s
  /\ List.filter is_process_kill (snd (run s es)) = [].
Proof.
  revert s; induction es as [|e es IH]; intros s Hes; [repeat split|].
  inversion Hes as [|? ? He Hrest]; subst.
  destruct (handle_output s e He) as (H1 & H2 & H3).
  destruct (IH (fst (handle s e)) Hrest) as (IH1 & IH2 & IH3 & IH4).
  rewrite run_cons. cbn [fst snd].
  rewrite List.filter_app, IH1, IH2, IH3, IH4, H1, H2, H3, handle_process_kill.
  destruct e; try discriminate; repeat split.
Qed.

Lemma handle_unarmed (s : state) (e : event) :
  is_stop e = false -> armed s = ∅ ->
  armed (fst (handle s e)) = ∅
  /\ List.filter is_process_kill (snd (handle s e)) = [].
Proof.
  intros He Hs. rewrite handle_process_kill.
  destruct e as [data now|line|message|code signal|id r|]; simpl;
    try discriminate; try (split; [exact Hs | reflexivity]).
  - unfold on_stdout_data. destruct (parseProgress data); [|split; [exact Hs | reflexivity]].
    destruct (negb (started s) && _); split; (exact Hs || reflexivity).
  - rewrite Hs. split; [|reflexivity].
    destruct (killTimeout s) as [t|]; [|reflexivity].
    apply leibniz_equiv. set_solver.
  - unfold on_timeout. rewrite Hs.
    rewrite bool_decide_false by set_solver. split; [exact Hs | reflexivity].
Qed.

Lemma run_unarmed (s : state) (es : list event) :
  Forall (fun e => is_stop e = false) es -> armed s = ∅ ->
  armed (fst (run s es)) = ∅
  /\ List.filter is_process_kill (snd (run s es)) = [].
Proof.
  revert s; induction es as [|e es IH]; intros s Hes Hs; [split; [exact Hs | reflexivity]|].
  inversion Hes as [|? ? He Hrest]; subst.
  destruct (handle_unarmed s e He Hs) as [H1 H2].
  destruct (IH (fst (handle s e)) Hrest H1) as [IH1 IH2].
  rewrite run_cons. cbn [fst snd]. rewrite List.filter_app, H2, IH1, IH2.
  split; reflexivity.
Qed.

(** [process.killed] is set by a [process.kill] of the timer callback only. *)
Lemma killed_only_by_process_kill (s : state) (es : list event) :
  killed (fst (run s es)) = true ->
  killed s = true \/ List.filter is_process_kill (snd (run s es)) <> [].
Proof.
  revert s; induction es as [|e es IH]; intros s; [left; assumption|].
  rewrite run_cons. cbn [fst snd]. intros Hk.
  rewrite List.filter_app.
  destruct (IH _ Hk) as [Hstep|Hlater].
  - destruct e as [data now|line|message|code signal|id r|]; simpl in *;
      try (left; exact Hstep).
    + unfold on_stdout_data in *. destruct (parseProgress data); [|left; exact Hstep].
      destruct (negb (started s) && _); left; exact Hstep.
    + unfold on_timeout in *. destruct (bool_decide (id ∈ armed s));
        [right; discriminate | left; exact Hstep].
  - right. intros Hnil. apply app_eq_nil in Hnil as [_ Hnil]. contradiction.
Qed.

(** C4.  A [stop()] that is the first of a lifetime writes "q" and the
    platform line terminator to stdin once and arms a timer of 2000 ms;
    when the child then exits with code 0 before the timer fires, the exit
    handler cancels that timer and logs the exit as "(Expected)" at debug
    level, and [process.kill] is called nowhere in the lifetime, as long as
    [stop()] is not called again; when instead the timer fires before the
    exit, its callback calls [process.kill] with SIGKILL. *)
Theorem stop_then_exit_or_kill
  (has_callback : bool) (start : Z) (pre mid post : list event)
  (signal : option string) (kill_result : bool) :
  Forall (fun e => is_stop e = false) pre ->
  Forall (fun e => is_output e = true) mid ->
  Forall (fun e => is_stop e = false) post ->
  let s0 := fst (run (init has_callback start) pre) in
  let t := next_timer s0 in
  let s2 := fst (run (fst (handle s0 stop)) mid) in
  snd (handle s0 stop) = [stdin_write ("q" +:+ EOL); setTimeout t 2000]
  /\ snd (handle s2 (process_exit (Some 0) signal))
     = [clearTimeout t;
        log_debug (exit_message (Some 0) signal +:+ " (Expected)") cameraName debug]
  /\ List.filter is_process_kill
       (snd (run (init has_callback start)
               (pre ++ stop :: mid ++ process_exit (Some 0) signal :: post))) = []
  /\ snd (handle s2 (timeout t kill_result)) = [process_kill "SIGKILL"].
Proof.
  intros Hpre Hmid Hpost s0 t s2.
  destruct (run_unarmed (init has_callback start) pre Hpre eq_refl) as [Harmed0 Hkill0].
  fold s0 in Harmed0.
  destruct (run_output (fst (handle s0 stop)) mid Hmid) as (Harmed2 & Htimer2 & _ & Hkill2).
  fold s2 in Harmed2, Htimer2.
  cbn [FfmpegStreamingProcess.handle do_stop fst armed killTimeout] in Harmed2, Htimer2.
  fold t in Harmed2, Htimer2.
  split; [reflexivity|].
  assert (Hexit : snd (handle s2 (process_exit (Some 0) signal))
                  = [clearTimeout t;
                     log_debug (exit_message (Some 0) signal +:+ " (Expected)")
                       cameraName debug]).
  { cbn [FfmpegStreamingProcess.handle on_process_exit snd]. rewrite Htimer2.
    rewrite bool_decide_true by eauto. reflexivity. }
  split; [exact Hexit|]. split.
  - rewrite run_app, run_cons, run_app, run_cons. cbn [fst snd].
    fold s0. fold s2.
    rewrite !List.filter_app, Hkill0, Hkill2, Hexit.
    assert (Harmed3 : armed (fst (handle s2 (process_exit (Some 0) signal))) = ∅).
    { cbn [FfmpegStreamingProcess.handle on_process_exit fst armed].
      rewrite Htimer2, Harmed2, Harmed0. set_solver. }
    destruct (run_unarmed _ post Hpost Harmed3) as [_ Hkill3].
    rewrite Hkill3. reflexivity.
  - cbn [FfmpegStreamingProcess.handle]. unfold on_timeout.
    rewrite bool_decide_true by (rewrite Harmed2; set_solver). reflexivity.
Qed.

(** *** Invariants of a lifetime *)

Lemma handle_started_frames (s : state) (e : event) :
  started (fst (handle s e)) = started s || has_frames e.
Proof.
  destruct (has_frames e) eqn:He.
  - rewrite orb_true_r. destruct e as [data now| | | | |]; try discriminate.
    cbn [has_frames] in He. cbn [FfmpegStreamingProcess.handle].
    unfold on_stdout_data. destruct (parseProgress data); [|discriminate].
    rewrite He, andb_true_r. destruct (started s) eqn:Hs; [exact Hs | reflexivity].
  - rewrite orb_false_r. apply handle_no_frames, He.
Qed.

Lemma run_started_frames (s : state) (es : list event) :
  started (fst (run s es)) = started s || existsb has_frames es.
Proof.
  revert s; induction es as [|e es IH]; intros s; [rewrite orb_false_r; reflexivity|].
  rewrite run_cons. cbn [fst existsb]. rewrite IH, handle_started_frames, orb_assoc.
  reflexivity.
Qed.

Lemma stdout_calls_length (s : state) (es : list event) :
  List.length (stdout_calls s es)
  = if started s then 0%nat else if existsb has_frames es then 1%nat else 0%nat.
Proof.
  revert s; induction es as [|e es IH]; intros s; [destruct (started s); reflexivity|].
  cbn [FfmpegStreamingProcess.stdout_calls existsb].
  rewrite length_app, IH, handle_started_frames.
  destruct (started s) eqn:Hs.
  - destruct (handle_started s e Hs) as [_ ->]. reflexivity.
  - destruct (has_frames e) eqn:He.
    + destruct e as [data now| | | | |]; try discriminate.
      cbn [has_frames] in He.
      cbn [FfmpegStreamingProcess.stdout_step_calls FfmpegStreamingProcess.handle].
      unfold on_stdout_data. destruct (parseProgress data); [|discriminate].
      rewrite Hs, He. reflexivity.
    + destruct (handle_no_frames s e He) as [_ ->]. reflexivity.
Qed.

(** X7.  In a lifetime, [started] is set exactly when a stdout chunk has
    parsed to a report with [frame > 0], and the stdout handler has logged
    once in that case and not at all otherwise. *)
Theorem started_iff_frames_seen (has_callback : bool) (start : Z) (es : list event) :
  started (fst (run (init has_callback start) es)) = existsb has_frames es
  /\ List.length (stdout_calls (init has_callback start) es)
     = if existsb has_frames es then 1%nat else 0%nat.
Proof.
  split; [apply run_started_frames | rewrite stdout_calls_length; reflexivity].
Qed.

Lemma handle_callback_cleared (s : state) (e : event) :
  callback s = false ->
  callback (fst (handle s e)) = false
  /\ List.filter is_callback_call (snd (handle s e)) = [].
Proof.
  intros Hc. destruct e as [data now|line|message|code signal|id r|];
    cbn [FfmpegStreamingProcess.handle].
  - unfold on_stdout_data. destruct (parseProgress data); [|split; [exact Hc | reflexivity]].
    destruct (negb (started s) && _); [|split; [exact Hc | reflexivity]].
    split; [exact Hc|]. cbn [snd List.filter].
    pose proof (startup_log_is_log (runtime_seconds now (startTime s))) as Hl.
    destruct (startup_log _); try discriminate; reflexivity.
  - unfold on_stderr_line. rewrite Hc. split; [reflexivity|].
    destruct debug, (match_severity line); reflexivity.
  - unfold on_process_error. rewrite Hc. split; [exact Hc | reflexivity].
  - unfold on_process_exit. rewrite Hc, andb_false_r. split; [reflexivity|].
    cbn [snd]. rewrite List.filter_app, cleared_no_calls by reflexivity.
    destruct (bool_decide (is_Some (killTimeout s)) && code_is code 0);
      [reflexivity|].
    destruct (bool_decide (code = None) || code_is code 255);
      [destruct (killed s); reflexivity | reflexivity].
  - unfold on_timeout. destruct (bool_decide (id ∈ armed s));
      split; (exact Hc || reflexivity).
  - split; [exact Hc | reflexivity].
Qed.

Lemma run_callback_cleared (s : state) (es : list event) :
  callback s = false ->
  List.filter is_callback_call (snd (run s es)) = [].
Proof.
  revert s; induction es as [|e es IH]; intros s Hc; [reflexivity|].
  destruct (handle_callback_cleared s e Hc) as [Hc' Hcalls].
  rewrite run_cons. cbn [snd]. rewrite List.filter_app, Hcalls, (IH _ Hc').
  reflexivity.
Qed.

(** X8.  Once a stderr line has been handled the ready callback is not
    invoked again, whatever follows; and it is never invoked when none was
    passed to the constructor. *)
Theorem callback_not_invoked_once_cleared
  (s : state) (line : string) (start : Z) (es : list event) :
  List.filter is_callback_call (snd (run (fst (handle s (stderr_line line))) es)) = []
  /\ List.filter is_callback_call (snd (run (init false start) es)) = [].
Proof.
  split; apply run_callback_cleared; reflexivity.
Qed.

(** *** What [stop()] costs *)

Lemma handle_stop_calls (s : state) (e : event) :
  List.filter is_stdin_write (snd (handle s e))
  = (if is_stop e then [stdin_write ("q" +:+ EOL)] else [])
  /\ List.filter is_setTimeout (snd (handle s e))
     = (if is_stop e then [setTimeout (next_timer s) 2000] else [])
  /\ next_timer (fst (handle s e))
     = if is_stop e then S (next_timer s) else next_timer s.
Proof.
  destruct e as [data now|line|message|code signal|id r|];
    cbn [FfmpegStreamingProcess.handle is_stop].
  - unfold on_stdout_data. destruct (parseProgress data); [|repeat split].
    destruct (negb (started s) && _); [|repeat split]. cbn [fst snd List.filter].
    pose proof (startup_log_is_log (runtime_seconds now (startTime s))) as Hl.
    destruct (startup_log _); try discriminate; repeat split.
  - unfold on_stderr_line.
    destruct (callback s), debug, (match_severity line); repeat split.
  - unfold on_process_error. destruct (callback s); repeat split.
  - unfold on_process_exit. cbn [fst snd].
    rewrite !List.filter_app, !cleared_no_calls by reflexivity.
    destruct (bool_decide (is_Some (killTimeout s)) && code_is code 0);
      [repeat split|].
    destruct (bool_decide (code = None) || code_is code 255);
      [destruct (killed s); repeat split|].
    destruct (negb (started s) && callback s); repeat split.
  - unfold on_timeout. destruct (bool_decide (id ∈ armed s)); repeat split.
  - repeat split.
Qed.

Lemma run_stop_calls (s : state) (es : list event) :
  List.filter is_stdin_write (snd (run s es))
  = repeat (stdin_write ("q" +:+ EOL)) (count_stops es)
  /\ List.filter is_setTimeout (snd (run s es))
     = map (fun t => setTimeout t 2000) (seq (next_timer s) (count_stops es)).
Proof.
  revert s; induction es as [|e es IH]; intros s; [split; reflexivity|].
  destruct (handle_stop_calls s e) as (Hwrite & Htimer & Hnext).
  destruct (IH (fst (handle s e))) as [IHwrite IHtimer].
  rewrite run_cons. cbn [snd].
  rewrite !List.filter_app, Hwrite, Htimer, IHwrite, IHtimer, Hnext.
  unfold count_stops. cbn [List.filter].
  destruct (is_stop e); split; reflexivity.
Qed.

Lemma handle_kill_budget (s : state) (e : event) :
  (List.length (List.filter is_process_kill (snd (handle s e)))
   + size (armed (fst (handle s e)))
   <= size (armed s) + if is_stop e then 1 else 0)%nat.
Proof.
  rewrite handle_process_kill.
  destruct e as [data now|line|message|code signal|id r|];
    cbn [FfmpegStreamingProcess.handle is_stop List.length].
  - unfold on_stdout_data. destruct (parseProgress data); [|cbn; lia].
    destruct (negb (started s) && _); cbn; lia.
  - cbn. lia.
  - cbn. lia.
  - cbn [on_process_exit fst armed]. destruct (killTimeout s) as [t|]; [|lia].
    assert (size (armed s ∖ {[t]}) <= size (armed s))%nat
      by (apply subseteq_size; set_solver).
    lia.
  - unfold on_timeout. destruct (bool_decide (id ∈ armed s)) eqn:Hid; [|cbn; lia].
    apply bool_decide_eq_true in Hid. cbn [fst armed List.length].
    assert (size (armed s) = size (armed s ∖ {[id]}) + 1)%nat.
    { rewrite (union_difference_L {[id]} (armed s)) at 1 by set_solver.
      rewrite size_union by set_solver. rewrite size_singleton. lia. }
    lia.
  - cbn [do_stop fst armed].
    assert (size (armed s ∪ {[next_timer s]}) <= size (armed s) + 1)%nat.
    { rewrite size_union_alt.
      assert (size ({[next_timer s]} ∖ armed s : gset timer) <= 1)%nat.
      { rewrite <- (size_singleton (next_timer s) (C := gset timer)).
        apply subseteq_size. set_solver. }
      lia. }
    lia.
Qed.

Lemma run_kill_budget (s : state) (es : list event) :
  (List.length (List.filter is_process_kill (snd (run s es)))
   + size (armed (fst (run s es)))
   <= size (armed s) + count_stops es)%nat.
Proof.
  revert s; induction es as [|e es IH]; intros s; [cbn; lia|].
  pose proof (handle_kill_budget s e) as Hstep.
  pose proof (IH (fst (handle s e))) as Hrest.
  rewrite run_cons. cbn [fst snd]. rewrite List.filter_app, length_app.
  unfold count_stops in *. cbn [List.filter].
  destruct (is_stop e); cbn [List.length] in *; lia.
Qed.

(** X9.  In a lifetime with n calls of [stop()], the supervisor writes the
    quit command to stdin n times and nothing else, arms the n timers
    0 .. n-1, each for 2000 ms, and calls [process.kill] at most n times:
    never without a [stop()]. *)
Theorem stop_accounting (has_callback : bool) (start : Z) (es : list event) :
  let calls := snd (run (init has_callback start) es) in
  List.filter is_stdin_write calls = repeat (stdin_write ("q" +:+ EOL)) (count_stops es)
  /\ List.filter is_setTimeout calls
     = map (fun t => setTimeout t 2000) (seq 0 (count_stops es))
  /\ (List.length (List.filter is_process_kill calls) <= count_stops es)%nat.
Proof.
  cbv zeta. destruct (run_stop_calls (init has_callback start) es) as [Hwrite Htimer].
  split; [exact Hwrite|]. split; [exact Htimer|].
  pose proof (run_kill_budget (init has_callback start) es) as H.
  cbn [init armed] in H. rewrite size_empty in H. lia.
Qed.

(** X10.  [process.killed] is set at the end of a lifetime only if
    [stop()] was called in it and [process.kill] was called. *)
Theorem killed_needs_stop (has_callback : bool) (start : Z) (es : list event) :
  killed (fst (run (init has_callback start) es)) = true ->
  (0 < count_stops es)%nat
  /\ (0 < List.length
           (List.filter is_process_kill (snd (run (init has_callback start) es))))%nat.
Proof.
  intros Hk.
  destruct (killed_only_by_process_kill _ _ Hk) as [Hinit|Hkill]; [discriminate|].
  pose proof (run_kill_budget (init has_callback start) es) as H.
  cbn [init armed] in H. rewrite size_empty in H.
  destruct (List.filter is_process_kill (snd (run (init has_callback start) es)));
    [contradiction|].
  cbn [List.length] in *. lia.
Qed.

(** X11.  When [stop()] is called twice, the exit handler cancels the
    second timer only: after the exit the first timer is still armed, and
    when it fires [process.kill] is called on the child that has exited. *)
Theorem second_stop_orphans_first_timer
  (s : state) (mid1 mid2 : list event) (code : option Z) (signal : option string)
  (kill_result : bool) :
  Forall (fun e => is_output e = true) mid1 ->
  Forall (fun e => is_output e = true) mid2 ->
  let t1 := next_timer s in
  let s2 := fst (run s (stop :: mid1 ++ stop :: mid2)) in
  let s3 := fst (handle s2 (process_exit code signal)) in
  List.filter is_clearTimeout (snd (handle s2 (process_exit code signal)))
  = [clearTimeout (S t1)]
  /\ snd (handle s3 (timeout (S t1) kill_result)) = []
  /\ snd (handle s3 (timeout t1 kill_result)) = [process_kill "SIGKILL"].
Proof.
  intros Hmid1 Hmid2 t1 s2 s3.
  assert (Hs2 : armed s2 = armed s ∪ {[t1]} ∪ {[S t1]} /\ killTimeout s2 = Some (S t1)).
  { unfold s2. rewrite run_cons, run_app, run_cons. cbn [fst].
    destruct (run_output (fst (handle s stop)) mid1 Hmid1) as (Ha1 & _ & Hn1 & _).
    set (s1 := fst (run (fst (handle s stop)) mid1)) in *.
    destruct (run_output (fst (handle s1 stop)) mid2 Hmid2) as (Ha2 & Hk2 & _ & _).
    rewrite Ha2, Hk2. cbn [FfmpegStreamingProcess.handle do_stop fst armed killTimeout].
    rewrite Ha1, Hn1. split; reflexivity. }
  destruct Hs2 as [Harmed Htimer].
  assert (Hs3 : armed s3 = (armed s ∪ {[t1]} ∪ {[S t1]}) ∖ {[S t1]}).
  { unfold s3. cbn [FfmpegStreamingProcess.handle on_process_exit fst armed].
    rewrite Htimer, Harmed. reflexivity. }
  split; [|split].
  - cbn [FfmpegStreamingProcess.handle on_process_exit snd]. rewrite Htimer.
    rewrite List.filter_app. cbn [List.filter is_clearTimeout app].
    repeat match goal with
           | |- context [if ?b then _ else _] => destruct b
           end; reflexivity.
  - cbn [FfmpegStreamingProcess.handle]. unfold on_timeout.
    assert (Hout : S t1 ∉ armed s3) by (rewrite Hs3; set_solver).
    rewrite bool_decide_false by exact Hout. reflexivity.
  - cbn [FfmpegStreamingProcess.handle]. unfold on_timeout.
    assert (Hne : t1 <> S t1) by lia.
    assert (Hin : t1 ∈ armed s3) by (rewrite Hs3; set_solver).
    rewrite bool_decide_true by exact Hin. reflexivity.
Qed.

Lemma handle_no_stop_killTimeout (s : state) (e : event) :
  is_stop e = false -> killTimeout (fst (handle s e)) = killTimeout s.
Proof.
  destruct e as [data now|line|message|code signal|id r|]; cbn;
    try discriminate; intros _; try reflexivity.
  - unfold on_stdout_data. destruct (parseProgress data); [|reflexivity].
    destruct (negb (started s) && _); reflexivity.
  - unfold on_timeout. destruct (bool_decide (id ∈ armed s)); reflexivity.
Qed.

Lemma run_no_stop_killTimeout (s : state) (es : list event) :
  Forall (fun e => is_stop e = false) es ->
  killTimeout (fst (run s es)) = killTimeout s.
Proof.
  revert s; induction es as [|e es IH]; intros s Hes; [reflexivity|].
  inversion_clear Hes as [|? ? He Hrest].
  rewrite run_cons. cbn [fst]. rewrite (IH _ Hrest). apply handle_no_stop_killTimeout, He.
Qed.

(** X12.  When [stop()] has not been called, an exit with code 0 is not
    the expected one: it is logged as "(Error)" at error level, the
    delegate's [stopStream] is called, and then the pending callback is
    invoked with an error if streaming had not started, [forceStopStream]
    is called otherwise. *)
Theorem exit_code_0_without_stop
  (has_callback : bool) (start : Z) (pre : list event) (signal : option string) :
  Forall (fun e => is_stop e = false) pre ->
  let s := fst (run (init has_callback start) pre) in
  let message := exit_message (Some 0) signal in
  snd (handle s (process_exit (Some 0) signal))
  = [log_error (message +:+ " (Error)") cameraName; stopStream sessionId]
    ++ (if negb (started s) && callback s then [callback_call (Some message)]
        else [forceStopStream sessionId]).
Proof.
  intros Hpre s message.
  pose proof (run_no_stop_killTimeout (init has_callback start) pre Hpre) as Hk.
  fold s in Hk. cbn [init killTimeout] in Hk.
  cbn [FfmpegStreamingProcess.handle on_process_exit snd]. rewrite Hk. reflexivity.
Qed.

Lemma handle_delegate (s : state) (e : event) :
  Forall (fun c => c = stopStream sessionId \/ c = forceStopStream sessionId)
    (List.filter is_delegate_call (snd (handle s e)))
  /\ (is_process_exit e = false -> is_process_error e = false ->
      List.filter is_delegate_call (snd (handle s e)) = []).
Proof.
  destruct e as [data now|line|message|code signal|id r|];
    cbn [FfmpegStreamingProcess.handle is_process_exit is_process_error].
  - unfold on_stdout_data. destruct (parseProgress data); [|split; [constructor | reflexivity]].
    destruct (negb (started s) && _); [|split; [constructor | reflexivity]].
    cbn [snd List.filter].
    pose proof (startup_log_is_log (runtime_seconds now (startTime s))) as Hl.
    destruct (startup_log _); try discriminate; split; (constructor || reflexivity).
  - unfold on_stderr_line.
    destruct (callback s), debug, (match_severity line); split; (constructor || reflexivity).
  - split; [|discriminate]. unfold on_process_error.
    destruct (callback s); repeat constructor.
  - split; [|discriminate]. unfold on_process_exit. cbn [snd].
    rewrite List.filter_app, cleared_no_calls by reflexivity.
    destruct (bool_decide (is_Some (killTimeout s)) && code_is code 0); [constructor|].
    destruct (bool_decide (code = None) || code_is code 255);
      [destruct (killed s); constructor|].
    destruct (negb (started s) && callback s); cbn;
      repeat match goal with
             | |- Forall _ (_ :: _) => constructor; [auto|]
             | |- Forall _ [] => constructor
             end.
  - unfold on_timeout. destruct (bool_decide (id ∈ armed s));
      split; (constructor || reflexivity).
  - split; [constructor | reflexivity].
Qed.

(** X13.  The delegate is called with the session of the constructor and
    with no other, and in a lifetime without ['error'] and without ['exit']
    it is not called at all: neither output, nor [stop()], nor the kill
    timer ends the session by itself. *)
Theorem delegate_only_on_error_or_exit (s : state) (es : list event) :
  Forall (fun e => is_process_exit e = false /\ is_process_error e = false) es ->
  List.filter is_delegate_call (snd (run s es)) = []
  /\ forall es', Forall (fun c => c = stopStream sessionId \/ c = forceStopStream sessionId)
                   (List.filter is_delegate_call (snd (run s es'))).
Proof.
  intros Hes. split.
  - revert s; induction Hes as [|e es [He1 He2] Hes IH]; intros s; [reflexivity|].
    rewrite run_cons. cbn [snd].
    rewrite List.filter_app, (proj2 (handle_delegate s e) He1 He2), IH. reflexivity.
  - intros es'. revert s; induction es' as [|e es' IH]; intros s; [constructor|].
    rewrite run_cons. cbn [snd]. rewrite List.filter_app. apply Forall_app.
    split; [apply handle_delegate | apply IH].
Qed.

(** X14.  In debug mode every stderr line is logged once, unchanged: at
    error level when it contains [panic], [fatal] or [error] in brackets,
    and otherwise at debug level with the flag that forces the output. *)
Theorem stderr_debug_logging (s : state) (line : string) :
  debug = true ->
  let logs := List.filter is_log (snd (handle s (stderr_line line))) in
  ((exists tag a b, (tag = "panic" \/ tag = "fatal" \/ tag = "error")
                    /\ line = a +:+ "[" +:+ tag +:+ "]" +:+ b) ->
   logs = [log_error line cameraName])
  /\ ((forall tag a b, (tag = "panic" \/ tag = "fatal" \/ tag = "error") ->
       line <> a +:+ "[" +:+ tag +:+ "]" +:+ b) ->
      logs = [log_debug line cameraName true]).
Proof.
  intros Hd logs. unfold logs. cbn [FfmpegStreamingProcess.handle on_stderr_line snd].
  rewrite Hd, List.filter_app.
  assert (Hcb : List.filter is_log (if callback s then [callback_call None] else []) = [])
    by (destruct (callback s); reflexivity).
  rewrite Hcb. split.
  - intros Htag. apply match_severity_spec in Htag. rewrite Htag. reflexivity.
  - intros Hnone. destruct (match_severity line) eqn:Hm; [|reflexivity].
    apply match_severity_spec in Hm as (tag & a & b & Htag & Hline).
    destruct (Hnone tag a b Htag Hline).
Qed.

Lemma runtime_seconds_lt (now start n : Z) :
  (runtime_seconds now start < inject_Z n)%Q <-> now - start < n * 1000.
Proof.
  unfold runtime_seconds. rewrite Qred_correct. unfold Qlt. cbn. lia.
Qed.

Lemma runtime_seconds_le (now start n : Z) :
  (inject_Z n <= runtime_seconds now start)%Q <-> n * 1000 <= now - start.
Proof.
  unfold runtime_seconds. rewrite Qred_correct. unfold Qle. cbn. lia.
Qed.

(** X15.  The level of the startup log by the milliseconds between the
    constructor and the first frames: debug below 5000 (also when the clock
    went back), warning from 5000 and below 22000, error from 22000. *)
Theorem startup_log_by_milliseconds (now start : Z) :
  let t := runtime_seconds now start in
  (now - start < 5000 -> startup_log t = log_debug (startup_message t) cameraName debug)
  /\ (5000 <= now - start -> now - start < 22000 ->
      startup_log t = log_warn (startup_message t) cameraName)
  /\ (22000 <= now - start -> startup_log t = log_error (startup_message t) cameraName).
Proof.
  intros t. destruct (startup_log_level t) as (Hdebug & Hwarn & Herror).
  split; [|split].
  - intros H. apply Hdebug. apply (runtime_seconds_lt now start 5). lia.
  - intros H1 H2. apply Hwarn.
    + apply (runtime_seconds_le now start 5). lia.
    + apply (runtime_seconds_lt now start 22). lia.
  - intros H. apply Herror. apply (runtime_seconds_le now start 22). lia.
Qed.

(** X16.  Every exit is logged exactly once, with the code and the signal
    and one of the four marks: "(Expected)" or "(Forced)" at debug level,
    "(Unexpected)" or "(Error)" at error level. *)
Theorem exit_logged_once (s : state) (code : option Z) (signal : option string) :
  let message := exit_message code signal in
  let logs := List.filter is_log (snd (handle s (process_exit code signal))) in
  logs = [log_debug (message +:+ " (Expected)") cameraName debug]
  \/ logs = [log_debug (message +:+ " (Forced)") cameraName debug]
  \/ logs = [log_error (message +:+ " (Unexpected)") cameraName]
  \/ logs = [log_error (message +:+ " (Error)") cameraName].
Proof.
  cbv zeta. cbn [FfmpegStreamingProcess.handle on_process_exit snd].
  rewrite List.filter_app, cleared_no_calls by reflexivity.
  destruct (bool_decide (is_Some (killTimeout s)) && code_is code 0); [auto|].
  destruct (bool_decide (code = None) || code_is code 255);
    [destruct (killed s); auto|].
  destruct (negb (started s) && callback s); auto.
Qed.

End SupervisorFacts.

(** ** The supervisor: examples *)

Lemma exit_with_error_code_witness :
  snd (demo_handle false (init true 0) (process_exit (Some 2) None))
  = [log_error "FFmpeg exited with code: 2 and signal: null (Error)" "Camera";
     stopStream "session-1";
     callback_call (Some "FFmpeg exited with code: 2 and signal: null")]
  /\ snd (demo_handle false streaming_state (process_exit (Some 2) None))
     = [log_error "FFmpeg exited with code: 2 and signal: null (Error)" "Camera";
        stopStream "session-1"; forceStopStream "session-1"].
Proof.
  split.
  - destruct (exit_with_error_code "Camera" "session-1" false JS.LF integer_toString
                (init true 0) 2 None ltac:(discriminate) ltac:(discriminate))
      as [Hpending _].
    exact (proj1 (Hpending eq_refl eq_refl)).
  - destruct (exit_with_error_code "Camera" "session-1" false JS.LF integer_toString
                streaming_state 2 None ltac:(discriminate) ltac:(discriminate))
      as [_ Hstarted].
    exact (proj1 (Hstarted eq_refl)).
Defined.

Lemma stop_then_exit_or_kill_witness :
  List.filter is_process_kill
    (snd (demo_run false (init true 0)
            [stderr_line "ffmpeg version 6.0"; stop; stdout_data sample_block 1200;
             process_exit (Some 0) None; timeout 0%nat true])) = []
  /\ snd (demo_run false (init true 0)
            [stderr_line "ffmpeg version 6.0"; stop; timeout 0%nat true])
     = [callback_call None; stdin_write ("q" +:+ JS.LF); setTimeout 0%nat 2000;
        process_kill "SIGKILL"].
Proof.
  destruct (stop_then_exit_or_kill "Camera" "session-1" false JS.LF integer_toString
              true 0 [stderr_line "ffmpeg version 6.0"]
              [stdout_data sample_block 1200] [timeout 0%nat true] None true)
    as (_ & _ & Hnokill & _).
  - repeat constructor.
  - repeat constructor.
  - repeat constructor.
  - split; [exact Hnokill | vm_compute; reflexivity].
Defined.

Lemma first_frames_logged_once_witness :
  demo_stdout_calls false (init true 0)
    [stderr_line "ffmpeg version 6.0"; stdout_data block_with_bare_out_time 900;
     stdout_data sample_block 3000; stdout_data sample_block 30000]
  = [log_debug "Getting the first frames took 3 seconds." "Camera" false]
  /\ demo_stdout_calls false (init true 0) [stdout_data sample_block 5000]
     = [log_warn "Getting the first frames took 5 seconds." "Camera"]
  /\ demo_stdout_calls false (init true 0) [stdout_data sample_block 22000]
     = [log_error "Getting the first frames took 22 seconds." "Camera"].
Proof.
  destruct (first_frames_logged_once "Camera" "session-1" false JS.LF integer_toString
              true 0 3000
              [stderr_line "ffmpeg version 6.0"; stdout_data block_with_bare_out_time 900]
              [stdout_data sample_block 30000] sample_block
              {| frame := JS.Num 10%Q; fps := JS.Num 25%Q; stream_q := JS.Num 28%Q;
                 bitrate := JS.Num (5123 # 10)%Q; total_size := JS.Num 10240%Q;
                 out_time_us := JS.Num 400000%Q; out_time := "00:00:00.40";
                 dup_frames := JS.Num 0%Q; drop_frames := JS.Num 0%Q;
                 speed := JS.Num 1%Q; progress := "continue" |}
              ltac:(repeat constructor) ltac:(vm_compute; reflexivity) eq_refl)
    as (_ & Honce & _).
  split; [etransitivity; [exact Honce | vm_compute; reflexivity]|].
  split; vm_compute; reflexivity.
Defined.

(** C8, as stated, fails: after a [stop()], an exit with code 255, or by a
    signal, that comes before the kill timer fires is logged at error level
    as "(Unexpected)". *)
Lemma graceful_stop_then_exit_255_is_unexpected :
  snd (demo_run false (init true 0) [stop; process_exit (Some 255) None])
  = [stdin_write ("q" +:+ JS.LF); setTimeout 0%nat 2000; clearTimeout 0%nat;
     log_error "FFmpeg exited with code: 255 and signal: null (Unexpected)" "Camera"]
  /\ snd (demo_run false (init true 0) [stop; process_exit None (Some "SIGTERM")])
     = [stdin_write ("q" +:+ JS.LF); setTimeout 0%nat 2000; clearTimeout 0%nat;
        log_error "FFmpeg exited with code: null and signal: SIGTERM (Unexpected)" "Camera"].
Proof. split; vm_compute; reflexivity. Qed.

Lemma exit_killed_or_unexpected_witness :
  snd (demo_run false (init true 0)
         [stop; timeout 0%nat true; process_exit None (Some "SIGKILL")])
  = [stdin_write ("q" +:+ JS.LF); setTimeout 0%nat 2000; process_kill "SIGKILL";
     clearTimeout 0%nat;
     log_debug "FFmpeg exited with code: null and signal: SIGKILL (Forced)" "Camera" false]
  /\ snd (demo_handle false (init true 0) (process_exit (Some 255) None))
     = [log_error "FFmpeg exited with code: 255 and signal: null (Unexpected)" "Camera"].
Proof.
  split; [vm_compute; reflexivity|].
  destruct (exit_killed_or_unexpected "Camera" "session-1" false JS.LF integer_toString
              (init true 0) (Some 255) None (or_intror eq_refl))
    as (_ & Hunexpected & _).
  exact (Hunexpected eq_refl).
Defined.

Lemma stderr_line_handling_witness :
  snd (demo_handle true (init true 0) (stderr_line "[error] Connection refused"))
  = [callback_call None; log_error "[error] Connection refused" "Camera"]
  /\ snd (demo_handle false (init true 0) (stderr_line "[error] Connection refused"))
     = [callback_call None]
  /\ callback (fst (demo_handle false (init true 0)
                      (stderr_line "[error] Connection refused"))) = false.
Proof.
  destruct (stderr_line_handling "Camera" "session-1" true JS.LF integer_toString
              (init true 0) "[error] Connection refused" 0
              [stdout_data sample_block 1200] ltac:(repeat constructor))
    as (Hlog & _ & Hcallback & _).
  destruct (stderr_line_handling "Camera" "session-1" false JS.LF integer_toString
              (init true 0) "[error] Connection refused" 0
              [stdout_data sample_block 1200] ltac:(repeat constructor))
    as (_ & Hsilent & Hcallback' & Hcleared & _).
  split; [|split].
  - unfold demo_handle. rewrite (Hcallback eq_refl), (Hlog eq_refl eq_refl). reflexivity.
  - unfold demo_handle. rewrite (Hcallback' eq_refl), (Hsilent eq_refl). reflexivity.
  - exact Hcleared.
Defined.

(** ** The supervisor: more examples *)

Lemma killed_needs_stop_witness :
  killed (fst (demo_run false (init true 0) [stop; timeout 0%nat true])) = true
  /\ (0 < count_stops [stop; timeout 0%nat true])%nat.
Proof.
  split; [reflexivity|].
  exact (proj1 (killed_needs_stop "Camera" "session-1" false JS.LF integer_toString
                  true 0 [stop; timeout 0%nat true] eq_refl)).
Defined.

Lemma second_stop_orphans_first_timer_witness :
  snd (demo_run false (init true 0)
         [stop; stderr_line "frame dropped"; stop; process_exit (Some 0) None;
          timeout 0%nat false])
  = [stdin_write ("q" +:+ JS.LF); setTimeout 0%nat 2000; callback_call None;
     stdin_write ("q" +:+ JS.LF); setTimeout 1%nat 2000; clearTimeout 1%nat;
     log_debug "FFmpeg exited with code: 0 and signal: null (Expected)" "Camera" false;
     process_kill "SIGKILL"]
  /\ snd (demo_handle false
            (fst (demo_run false (init true 0)
                    [stop; stderr_line "frame dropped"; stop; process_exit (Some 0) None]))
            (timeout 0%nat false))
     = [process_kill "SIGKILL"].
Proof.
  split; [vm_compute; reflexivity|].
  destruct (second_stop_orphans_first_timer "Camera" "session-1" false JS.LF
              integer_toString (init true 0) [stderr_line "frame dropped"] []
              (Some 0) None false ltac:(repeat constructor) ltac:(repeat constructor))
    as (_ & _ & Hkill).
  exact Hkill.
Defined.

Lemma exit_code_0_without_stop_witness :
  snd (demo_run false (init true 0)
         [stderr_line "ffmpeg version 6.0"; stdout_data sample_block 1200;
          process_exit (Some 0) None])
  = [callback_call None;
     log_debug "Getting the first frames took 1 seconds." "Camera" false;
     log_error "FFmpeg exited with code: 0 and signal: null (Error)" "Camera";
     stopStream "session-1"; forceStopStream "session-1"]
  /\ snd (demo_handle false
            (fst (demo_run false (init true 0)
                    [stderr_line "ffmpeg version 6.0"; stdout_data sample_block 1200]))
            (process_exit (Some 0) None))
     = [log_error "FFmpeg exited with code: 0 and signal: null (Error)" "Camera";
        stopStream "session-1"; forceStopStream "session-1"].
Proof.
  split; [vm_compute; reflexivity|].
  etransitivity;
    [exact (exit_code_0_without_stop "Camera" "session-1" false JS.LF integer_toString
              true 0 [stderr_line "ffmpeg version 6.0"; stdout_data sample_block 1200]
              None ltac:(repeat constructor))
    | vm_compute; reflexivity].
Defined.

Lemma delegate_only_on_error_or_exit_witness :
  List.filter is_delegate_call
    (snd (demo_run true (init true 0)
            [stderr_line "[fatal] no input"; stdout_data sample_block 30000; stop;
             timeout 0%nat true])) = [].
Proof.
  apply (delegate_only_on_error_or_exit "Camera" "session-1" true JS.LF integer_toString).
  repeat constructor.
Defined.

Lemma stderr_debug_logging_witness :
  List.filter is_log
    (snd (demo_handle true (init true 0) (stderr_line "Opening [fatal] input")))
  = [log_error "Opening [fatal] input" "Camera"].
Proof.
  apply (stderr_debug_logging "Camera" "session-1" true JS.LF integer_toString
           (init true 0) "Opening [fatal] input" eq_refl).
  exists "fatal", "Opening ", " input". split; [auto | reflexivity].
Defined.
